(** * Unemployment analysis: train / persist / infer pipeline

    A shallow embedding of [train_model.py] (the training script) and of the
    prediction tab of [app.py] (the dashboard), together with the parts of
    pandas and scikit-learn the two scripts rely on:

    - Python [str] values are lists of Unicode code points, compared the way
      Python compares them (lexicographically, by code point);
    - a pandas cell of a textual column is either the missing value [NaN]
      or a string;
    - a Python [dict] is an association list in insertion order;
    - raising code returns a [result];
    - [LabelEncoder] holds [classes_], the sorted distinct labels;
    - the random forest is a list of regression trees, evaluated in exact
      rational arithmetic; what fitting can return is described by the
      relation [RandomForest.fitted]. *)

From Stdlib Require Import List Bool Arith NArith ZArith QArith String Ascii Lia.
From Stdlib Require Import Sorting.Sorted Lqa.
Import ListNotations.

Set Implicit Arguments.

(* ================================================================= *)
(** ** Python strings *)

(** A [str] is its sequence of code points. *)
Definition str : Type := list N.

(** ASCII (and Latin-1) literals of the scripts. *)
Definition lit (s : string) : str := List.map N_of_ascii (list_ascii_of_string s).

(** [str.isspace] on one code point: the code points CPython's
    [_PyUnicode_IsWhitespace] accepts. *)
Definition isspace (c : N) : bool :=
  ((9 <=? c) && (c <=? 13) || (28 <=? c) && (c <=? 32)
   || (c =? 133) || (c =? 160) || (c =? 5760)
   || (8192 <=? c) && (c <=? 8202)
   || (c =? 8232) || (c =? 8233) || (c =? 8239) || (c =? 8287)
   || (c =? 12288))%N.

Fixpoint lstrip (s : str) : str :=
  match s with
  | [] => []
  | c :: s' => if isspace c then lstrip s' else s
  end.

Definition rstrip (s : str) : str := rev (lstrip (rev s)).

(** [s.strip()] with no argument. *)
Definition strip (s : str) : str := rstrip (lstrip s).

(** No whitespace at either end. *)
Definition trimmed (s : str) : Prop := lstrip s = s /\ rstrip s = s.

(** Python's ordering of strings. *)
Definition str_compare (a b : str) : comparison := list_compare N.compare a b.

Definition str_ltb (a b : str) : bool :=
  match str_compare a b with Lt => true | _ => false end.

Definition str_eqb (a b : str) : bool :=
  match str_compare a b with Eq => true | _ => false end.

Definition str_lt (a b : str) : Prop := str_compare a b = Lt.

Definition increasing (l : list str) : Prop := StronglySorted str_lt l.

(** A string decoded from bytes with [encoding='latin1']: every byte is its
    own code point. *)
Definition latin1 (s : str) : Prop := Forall (fun c => (c < 256)%N) s.

(* ================================================================= *)
(** ** Exceptions, results, dictionaries *)

Inductive exn : Type :=
| KeyError (key : str)           (* dict indexing with an absent key *)
| ValueError (unseen : str)      (* "y contains previously unseen labels" *)
| FileNotFoundError
| UnpicklingError
| SystemExit.

Inductive result (A : Type) : Type :=
| Ok (a : A)
| Raise (e : exn).

Arguments Ok {A} a.
Arguments Raise {A} e.

Definition bind {A B : Type} (r : result A) (k : A -> result B) : result B :=
  match r with
  | Ok a => k a
  | Raise e => Raise e
  end.

Notation "x <- r ;; k" := (bind r (fun x => k))
  (at level 61, r at next level, right associativity).

(** Evaluation of a list display [[e1, ..., en]], left to right. *)
Fixpoint sequence {A : Type} (rs : list (result A)) : result (list A) :=
  match rs with
  | [] => Ok []
  | r :: rs' => a <- r ;; l <- sequence rs' ;; Ok (a :: l)
  end.

Definition raises {A : Type} (r : result A) : bool :=
  match r with Ok _ => false | Raise _ => true end.

(** A [dict] with string keys, in insertion order. *)
Definition dict (V : Type) : Type := list (str * V).

(** [d.get(k)]: the value of the first (only) binding of [k]. *)
Fixpoint dict_get {V : Type} (d : dict V) (k : str) : option V :=
  match d with
  | [] => None
  | (k', v) :: d' => if str_eqb k k' then Some v else dict_get d' k
  end.

(** [d[k]]. *)
Definition getitem {V : Type} (d : dict V) (k : str) : result V :=
  match dict_get d k with
  | Some v => Ok v
  | None => Raise (KeyError k)
  end.

(** [list(d.keys())]. *)
Definition keys {V : Type} (d : dict V) : list str := List.map fst d.

(* ================================================================= *)
(** ** pandas: cells, rows, frames *)

(** A cell of a textual ([object]) column. *)
Inductive cell : Type :=
| NaN
| Str (s : str).

(** One survey response, with the header fields of the input file. *)
Record row : Type := mkRow {
  age_group : cell;
  education_level : cell;
  employment_status : cell;
  gender : cell;
  skill_alignment : cell;
  skill_training : cell;
  job_seeking_status : cell;
  issue_severity_perception : cell;
  proposed_solution : cell
}.

Definition DataFrame : Type := list row.

Definition isna (c : cell) : bool :=
  match c with NaN => true | Str _ => false end.

Definition cells (r : row) : list cell :=
  [age_group r; education_level r; employment_status r; gender r;
   skill_alignment r; skill_training r; job_seeking_status r;
   issue_severity_perception r; proposed_solution r].

(** [df.dropna(how='all')]: a row goes only when every field is missing. *)
Definition dropna_all (df : DataFrame) : DataFrame :=
  filter (fun r => negb (forallb isna (cells r))) df.

(** [series.astype(str)] on one cell: the missing value prints as [nan]. *)
Definition astype_str (c : cell) : str :=
  match c with
  | NaN => lit "nan"
  | Str s => s
  end.

(** [series.map(d)] on one cell: absent keys and missing cells give NaN,
    here [None]. *)
Definition series_map (d : dict Z) (c : cell) : option Z :=
  match c with
  | NaN => None
  | Str s => dict_get d s
  end.

(** [series.fillna(v)] on one numeric cell. *)
Definition fillna (v : Z) (x : option Z) : Z :=
  match x with
  | Some z => z
  | None => v
  end.

(** [series.fillna(s)] on one textual cell. *)
Definition fillna_str (s : str) (c : cell) : cell :=
  match c with
  | NaN => Str s
  | Str _ => c
  end.

(** [series.str.strip()] on one textual cell: missing stays missing. *)
Definition str_strip (c : cell) : cell :=
  match c with
  | NaN => NaN
  | Str s => Str (strip s)
  end.

(* ================================================================= *)
(** ** scikit-learn: LabelEncoder *)

Module LabelEncoder.

Record t : Type := mk { classes_ : list str }.

(** Insertion into a strictly increasing list. *)
Fixpoint insert (x : str) (l : list str) : list str :=
  match l with
  | [] => [x]
  | y :: l' =>
      match str_compare x y with
      | Lt => x :: l
      | Eq => l
      | Gt => y :: insert x l'
      end
  end.

(** [sorted(set(values))]: the distinct values in increasing order. *)
Definition unique (values : list str) : list str :=
  fold_right insert [] values.

(** [le.fit(y)]. *)
Definition fit (y : list str) : t := mk (unique y).

(** Position of a label in the table built from [classes_]. *)
Fixpoint index_of (v : str) (l : list str) : option nat :=
  match l with
  | [] => None
  | y :: l' => if str_eqb v y then Some 0%nat else option_map S (index_of v l')
  end.

(** [le.transform([v])[0]]: unseen labels raise [ValueError]. *)
Definition transform (le : t) (v : str) : result nat :=
  match index_of v (classes_ le) with
  | Some i => Ok i
  | None => Raise (ValueError v)
  end.

(** [le.fit_transform(y)]: the encoder it leaves fitted, and the codes. *)
Definition fit_transform (y : list str) : result (t * list nat) :=
  let le := fit y in
  codes <- sequence (List.map (transform le) y) ;; Ok (le, codes).

(** The codes of values that are all known to [le]. *)
Definition codes (le : t) (y : list str) : list nat :=
  List.map (fun v => match index_of v (classes_ le) with
                     | Some i => i
                     | None => 0%nat
                     end) y.

(** [le.classes_[code]], the reverse lookup. *)
Definition decode (le : t) (code : nat) : option str :=
  nth_error (classes_ le) code.

End LabelEncoder.

(* ================================================================= *)
(** ** scikit-learn: RandomForestRegressor *)

Module RandomForest.

(** A fitted regression tree: a leaf predicts its stored value, an inner
    node sends [x] left when [x[feature] <= threshold]. *)
Inductive tree : Type :=
| Leaf (value : Q)
| Node (feature : nat) (threshold : Q) (left right : tree).

Definition forest : Type := list tree.

(** [n_estimators=100] in the training script. *)
Definition n_estimators : nat := 100.

Definition Zsum (zs : list Z) : Z := fold_right Z.add 0%Z zs.

Definition Qsum (qs : list Q) : Q := fold_right Qplus 0%Q qs.

(** Mean of the targets of a bag of training rows. *)
Definition mean (zs : list Z) : Q :=
  (inject_Z (Zsum zs) / inject_Z (Z.of_nat (List.length zs)))%Q.

Fixpoint predict_tree (t : tree) (x : list Z) : Q :=
  match t with
  | Leaf v => v
  | Node f thr l r =>
      if Qle_bool (inject_Z (nth f x 0%Z)) thr
      then predict_tree l x else predict_tree r x
  end.

(** [model.predict([x])[0]]: the mean of the trees' predictions. *)
Definition predict (m : forest) (x : list Z) : Q :=
  (Qsum (List.map (fun t => predict_tree t x) m)
   / inject_Z (Z.of_nat (List.length m)))%Q.

(** The range of the severity gauge. *)
Definition in_range (q : Q) : Prop := (1 <= q)%Q /\ (q <= 5)%Q.

(** What growing a tree on targets [y] can produce: every leaf stores the
    mean target of a non-empty bag of (bootstrap-sampled) training rows.
    Split features and thresholds are unconstrained. *)
Inductive grown (y : list Z) : tree -> Prop :=
| grown_leaf (samples : list nat) :
    samples <> [] ->
    Forall (fun i => (i < List.length y)%nat) samples ->
    grown y (Leaf (mean (List.map (fun i => nth i y 0%Z) samples)))
| grown_node f thr l r :
    grown y l -> grown y r -> grown y (Node f thr l r).

(** What [RandomForestRegressor(n_estimators=100, ...).fit(X, y)] returns. *)
Definition fitted (y : list Z) (m : forest) : Prop :=
  List.length m = n_estimators /\ Forall (grown y) m.

End RandomForest.

(* ================================================================= *)
(** ** The asset bundle (the pickled dictionary) *)

Record Assets : Type := mkAssets {
  model : RandomForest.forest;
  encoders : dict LabelEncoder.t;
  age_map : dict Z;
  edu_map : dict Z;
  emp_map : dict Z;
  feature_names : list str
}.

(** [d[k] = v]: overwrite the binding of [k] in place, or append one. *)
Fixpoint setitem {V : Type} (d : dict V) (k : str) (v : V) : dict V :=
  match d with
  | [] => [(k, v)]
  | (k', v') :: d' =>
      if str_eqb k k' then (k, v) :: d' else (k', v') :: setitem d' k v
  end.

(* ================================================================= *)
(** ** train_model.py *)

Module train_model.

(** The dash of the two age labels is U+2013. *)
Definition age_map : dict Z :=
  [ (lit "18" ++ [8211%N] ++ lit "24", 1%Z);
    (lit "25" ++ [8211%N] ++ lit "34", 2%Z) ].

Definition edu_map : dict Z :=
  [ (lit "School level", 1%Z); (lit "Undergraduate", 2%Z);
    (lit "Postgraduate", 3%Z) ].

Definition emp_map : dict Z :=
  [ (lit "Student", 1%Z); (lit "Employed", 2%Z); (lit "Unemployed", 3%Z) ].

Definition severity_map : dict Z :=
  [ (lit "Yes", 5%Z); (lit "Maybe", 3%Z); (lit "No", 1%Z) ].

(** [df[c].map(m).fillna(d)], per record. *)
Definition age_numeric (r : row) : Z := fillna 1 (series_map age_map (age_group r)).
Definition edu_numeric (r : row) : Z := fillna 2 (series_map edu_map (education_level r)).
Definition emp_numeric (r : row) : Z := fillna 1 (series_map emp_map (employment_status r)).
Definition target_score (r : row) : Z :=
  fillna 3 (series_map severity_map (issue_severity_perception r)).

Definition categorical_cols : list str :=
  [lit "gender"; lit "skill_alignment"; lit "skill_training";
   lit "job_seeking_status"].

Definition features : list str :=
  [lit "age_numeric"; lit "edu_numeric"; lit "emp_numeric"; lit "gender";
   lit "skill_alignment"; lit "skill_training"; lit "job_seeking_status"].

(** The textual columns of the frame as read, by header name. *)
Definition columns : dict (row -> cell) :=
  [ (lit "age_group", age_group); (lit "education_level", education_level);
    (lit "employment_status", employment_status); (lit "gender", gender);
    (lit "skill_alignment", skill_alignment);
    (lit "skill_training", skill_training);
    (lit "job_seeking_status", job_seeking_status);
    (lit "issue_severity_perception", issue_severity_perception);
    (lit "proposed_solution", proposed_solution) ].

(** [df[col].astype(str).str.strip()], per cell. *)
Definition normalise (c : cell) : str := strip (astype_str c).

Definition label_column (f : row -> cell) (df : DataFrame) : list str :=
  List.map (fun r => normalise (f r)) df.

(** The state of the encoder loop: the [encoders] dictionary and the
    numeric columns of [df] written so far. *)
Definition loop_state : Type := (dict LabelEncoder.t * dict (list Z))%type.

(** One turn of [for col in categorical_cols]. *)
Definition encode_col (df : DataFrame) (st : result loop_state) (col : str)
  : result loop_state :=
  s <- st ;;
  f <- getitem columns col ;;
  fc <- LabelEncoder.fit_transform (label_column f df) ;;
  Ok (setitem (fst s) col (fst fc),
      setitem (snd s) col (List.map Z.of_nat (snd fc))).

(** The numeric columns after steps 2 and 3 of the script. *)
Definition mapped_cols (df : DataFrame) : dict (list Z) :=
  [ (lit "age_numeric", List.map age_numeric df);
    (lit "edu_numeric", List.map edu_numeric df);
    (lit "emp_numeric", List.map emp_numeric df);
    (lit "target_score", List.map target_score df) ].

Definition encode_all (df : DataFrame) : result loop_state :=
  fold_left (encode_col df) categorical_cols (Ok ([], mapped_cols df)).

(** Row [i] of a selection of columns. *)
Definition row_at (cols : list (list Z)) (i : nat) : list Z :=
  List.map (fun c => nth i c 0%Z) cols.

(** [df[features]], as the list of its rows. *)
Definition select (n : nat) (num : dict (list Z)) (names : list str)
  : result (list (list Z)) :=
  cols <- sequence (List.map (getitem num) names) ;;
  Ok (List.map (row_at cols) (seq 0 n)).

(** The textual fields of a record once the preprocessing has run: the
    four encoded columns show the label that was fitted, the others are
    as read. *)
Definition preprocessed (r : row) : row :=
  mkRow (age_group r) (education_level r) (employment_status r)
        (Str (normalise (gender r))) (Str (normalise (skill_alignment r)))
        (Str (normalise (skill_training r)))
        (Str (normalise (job_seeking_status r)))
        (issue_severity_perception r) (proposed_solution r).

(** Steps 2 to 5 on the cleaned frame: the encoders, [X] and [y]. *)
Definition design (df : DataFrame)
  : result (dict LabelEncoder.t * list (list Z) * list Z) :=
  st <- encode_all df ;;
  X <- select (List.length df) (snd st) features ;;
  y <- getitem (snd st) (lit "target_score") ;;
  Ok (fst st, X, y).

(** The encoder the loop fits for a column, and the codes it writes back. *)
Definition encoder_of (f : row -> cell) (df : DataFrame) : LabelEncoder.t :=
  LabelEncoder.fit (label_column f df).

Definition codes_of (f : row -> cell) (df : DataFrame) : list Z :=
  List.map Z.of_nat (LabelEncoder.codes (encoder_of f df) (label_column f df)).

(** The seven columns of [X], in the order of [features]. *)
Definition X_cols (df : DataFrame) : list (list Z) :=
  [ List.map age_numeric df; List.map edu_numeric df; List.map emp_numeric df;
    codes_of gender df; codes_of skill_alignment df;
    codes_of skill_training df; codes_of job_seeking_status df ].

Section Script.

(** [RandomForestRegressor(n_estimators=100, random_state=42).fit]. *)
Variable rf_fit : list (list Z) -> list Z -> result RandomForest.forest.

(** The script, from the frame [read_csv] returned ([None]: the file was
    not found) to the dictionary it pickles. *)
Definition main (csv : option DataFrame) : result Assets :=
  match csv with
  | None => Raise SystemExit
  | Some raw =>
      d <- design (dropna_all raw) ;;
      m <- rf_fit (snd (fst d)) (snd d) ;;
      Ok (mkAssets m (fst (fst d)) age_map edu_map emp_map features)
  end.

End Script.

Section Pickle.

Variable rf_fit : list (list Z) -> list Z -> result RandomForest.forest.

(** [pickle.dump] of the bundle dictionary, as the bytes written. *)
Variable pickle_dump : Assets -> list N.

(** The whole script on a disk that holds [unemployment_model.pkl] or not:
    the file is opened for writing only after [model.fit] has returned. *)
Definition script (csv : option DataFrame) (disk : option (list N))
  : option (list N) :=
  match main rf_fit csv with
  | Ok a => Some (pickle_dump a)
  | Raise _ => disk
  end.



End Pickle.

End train_model.

(* ================================================================= *)
(** ** app.py *)

Module app.

Definition Unknown : str := lit "Unknown".

(** [data[col].dtype == 'object']: the column holds some text. *)
Definition is_object (col : list cell) : bool := existsb (fun c => negb (isna c)) col.

(** [data[col].fillna("Unknown").str.strip()] on the text columns. *)
Definition clean_col (data : DataFrame) (f : row -> cell) (r : row) : cell :=
  if is_object (List.map f data) then str_strip (fillna_str Unknown (f r)) else f r.

Definition load_clean_data (data : DataFrame) : DataFrame :=
  List.map (fun r =>
    mkRow (clean_col data age_group r) (clean_col data education_level r)
          (clean_col data employment_status r) (clean_col data gender r)
          (clean_col data skill_alignment r) (clean_col data skill_training r)
          (clean_col data job_seeking_status r)
          (clean_col data issue_severity_perception r)
          (clean_col data proposed_solution r)) data.

Definition blob : Type := list N.

Section Assets.

(** [pickle.load] on the bytes of the bundle file. *)
Variable pickle_load : blob -> result Assets.

(** [open('unemployment_model.pkl', 'rb')] on a disk that holds the file
    or not. *)
Definition open_rb (disk : option blob) : result blob :=
  match disk with
  | Some b => Ok b
  | None => Raise FileNotFoundError
  end.

(** [load_assets()]: any exception becomes [None]. *)
Definition load_assets (disk : option blob) : option Assets :=
  match (f <- open_rb disk ;; pickle_load f) with
  | Ok a => Some a
  | Raise _ => None
  end.

End Assets.

(** The seven selections of the prediction form. *)
Record Selections : Type := mkSel {
  age : str; edu : str; emp : str;
  gen : str; skl : str; trn : str; sk : str
}.

(** The option lists handed to the seven [st.selectbox] calls. *)
Record Menus : Type := mkMenus {
  age_options : list str; edu_options : list str; emp_options : list str;
  gen_options : list str; skl_options : list str; trn_options : list str;
  sk_options : list str
}.

Definition classes_of (assets : Assets) (col : string) : result (list str) :=
  le <- getitem (encoders assets) (lit col) ;; Ok (LabelEncoder.classes_ le).

Definition menus (assets : Assets) : result Menus :=
  g <- classes_of assets "gender" ;;
  s <- classes_of assets "skill_alignment" ;;
  t <- classes_of assets "skill_training" ;;
  j <- classes_of assets "job_seeking_status" ;;
  Ok (mkMenus (keys (age_map assets)) (keys (edu_map assets))
              (keys (emp_map assets)) g s t j).

(** Every selectbox returns one of its options. *)
Definition selectable (m : Menus) (s : Selections) : Prop :=
  In (age s) (age_options m) /\ In (edu s) (edu_options m) /\
  In (emp s) (emp_options m) /\ In (gen s) (gen_options m) /\
  In (skl s) (skl_options m) /\ In (trn s) (trn_options m) /\
  In (sk s) (sk_options m).

(** The selections repeat the labels of a training record: the ordinal
    labels as read, the categorical labels as the training script
    normalised them. *)
Definition matches (r : row) (s : Selections) : Prop :=
  age_group r = Str (age s) /\ education_level r = Str (edu s) /\
  employment_status r = Str (emp s) /\
  gen s = train_model.normalise (gender r) /\
  skl s = train_model.normalise (skill_alignment r) /\
  trn s = train_model.normalise (skill_training r) /\
  sk s = train_model.normalise (job_seeking_status r).

(** [assets['encoders'][col].transform([v])[0]]. *)
Definition encode (assets : Assets) (col : string) (v : str) : result Z :=
  le <- getitem (encoders assets) (lit col) ;;
  c <- LabelEncoder.transform le v ;;
  Ok (Z.of_nat c).

(** The row [x_in[0]] built when the button is pressed. *)
Definition x_in (assets : Assets) (s : Selections) : result (list Z) :=
  sequence
    [ getitem (age_map assets) (age s);
      getitem (edu_map assets) (edu s);
      getitem (emp_map assets) (emp s);
      encode assets "gender" (gen s);
      encode assets "skill_alignment" (skl s);
      encode assets "skill_training" (trn s);
      encode assets "job_seeking_status" (sk s) ].

(** [assets['model'].predict(x_in)[0]]. *)
Definition prediction (assets : Assets) (s : Selections) : result Q :=
  x <- x_in assets s ;; Ok (RandomForest.predict (model assets) x).

(** What the prediction tab shows. *)
Inductive element : Type :=
| st_header (text : string)
| st_metric (label : string) (value : Q)
| st_error (text : string).

(** [with tab3:], for the loaded assets, the selections made and whether
    the button was pressed. *)
Definition tab3 (assets : option Assets) (s : Selections) (pressed : bool)
  : result (list element) :=
  match assets with
  | Some a =>
      _ <- menus a ;;
      if pressed then
        p <- prediction a s ;;
        Ok [st_header "Crisis Perception AI";
            st_metric "Predicted Severity Score" p]
      else Ok [st_header "Crisis Perception AI"]
  | None =>
      Ok [st_error "Model assets not found. Run the training script first."]
  end.

(** A frame as the page holds it: [pd.DataFrame()], which
    [load_clean_data] returns when reading raises, has no columns. *)
Inductive frame : Type :=
| NoColumns
| Table (rows : DataFrame).

(** What [pd.read_csv] gives [load_clean_data]: the frame, or an exception
    with its text. *)
Inductive csv_read : Type :=
| csv_frame (data : DataFrame)
| csv_error (text : string).

(** [load_clean_data()], with the message of the [except] branch,
    [f"Error loading CSV: {e}"]. *)
Definition load_clean_data_or_empty (read : csv_read) : frame * list element :=
  match read with
  | csv_frame data => (Table (load_clean_data data), [])
  | csv_error text =>
      (NoColumns, [st_error (String.append "Error loading CSV: " text)])
  end.

(** [df.empty]. *)
Definition empty (df : frame) : bool :=
  match df with
  | NoColumns => true
  | Table [] => true
  | Table (_ :: _) => false
  end.

(** [df[name]] for a header column. *)
Definition column (df : frame) (name : string) : result (list cell) :=
  match df with
  | NoColumns => Raise (KeyError (lit name))
  | Table rows =>
      f <- getitem train_model.columns (lit name) ;; Ok (List.map f rows)
  end.

(** [c == 'Unemployed'] on one cell. *)
Definition is_unemployed (c : cell) : bool :=
  match c with
  | NaN => false
  | Str s => str_eqb s (lit "Unemployed")
  end.

(** [(df['employment_status'] == 'Unemployed').mean() * 100]. *)
Definition unemp_rate (status : list cell) : Q :=
  (inject_Z (Z.of_nat (List.length (filter is_unemployed status)))
   / inject_Z (Z.of_nat (List.length status)) * 100)%Q.

(** The two metrics of the sidebar, shown [if not df.empty]. *)
Definition sidebar (df : frame) : result (list element) :=
  if empty df then Ok []
  else
    status <- column df "employment_status" ;;
    Ok [st_metric "Total Sample" (inject_Z (Z.of_nat (List.length status)));
        st_metric "Unemployment Rate" (unemp_rate status)].

(** [c != s] on one cell: a missing entry differs from every string. *)
Definition differs (s : str) (c : cell) : bool :=
  match c with
  | NaN => true
  | Str t => negb (str_eqb t s)
  end.

(** [tree_df = df[df['proposed_solution'] != "Unknown"]]. *)
Definition tree_df (df : frame) : result DataFrame :=
  match df with
  | NoColumns => Raise (KeyError (lit "proposed_solution"))
  | Table rows =>
      Ok (filter (fun r => differs Unknown (proposed_solution r)) rows)
  end.

(** [.replace("", "Unknown")] on one cell. *)
Definition replace_empty (c : cell) : cell :=
  match c with
  | Str [] => Str Unknown
  | _ => c
  end.

(** [sun_df = df[['gender', 'employment_status']].replace("", "Unknown").dropna()]:
    the two columns, without the rows that miss either. On a frame without
    columns the selection raises [KeyError]; the key reported here is the
    first of the two. *)
Definition sun_df (df : frame) : result (list (cell * cell)) :=
  match df with
  | NoColumns => Raise (KeyError (lit "gender"))
  | Table rows =>
      Ok (filter (fun p => negb (isna (fst p)) && negb (isna (snd p)))
            (List.map (fun r => (replace_empty (gender r),
                                 replace_empty (employment_status r))) rows))
  end.

(** The table of [pd.crosstab(a, b)]: rows that miss either value are left
    out, the row and column labels are the sorted distinct values, the cells
    count the pairs. *)
Record Crosstab : Type := mkCrosstab {
  index : list str;
  labels : list str;
  counts : list (list nat)
}.

Fixpoint present_pairs (a b : list cell) : list (str * str) :=
  match a, b with
  | Str x :: a', Str y :: b' => (x, y) :: present_pairs a' b'
  | _ :: a', _ :: b' => present_pairs a' b'
  | _, _ => []
  end.

Definition count_pair (ps : list (str * str)) (x y : str) : nat :=
  List.length (filter (fun p => str_eqb (fst p) x && str_eqb (snd p) y) ps).

Definition crosstab (a b : list cell) : Crosstab :=
  let ps := present_pairs a b in
  let idx := LabelEncoder.unique (List.map fst ps) in
  let lbl := LabelEncoder.unique (List.map snd ps) in
  mkCrosstab idx lbl
    (List.map (fun x => List.map (fun y => count_pair ps x y) lbl) idx).

(** [heatmap_data = pd.crosstab(df['education_level'], df['employment_status'])]. *)
Definition heatmap_data (df : frame) : result Crosstab :=
  a <- column df "education_level" ;;
  b <- column df "employment_status" ;;
  Ok (crosstab a b).

(** The data the page computes, in script order: the loading message, the
    sidebar metrics, the frames handed to the treemap and to the sunburst,
    the heatmap table and the prediction tab. *)
Record Page : Type := mkPage {
  notices : list element;
  metrics : list element;
  treemap : DataFrame;
  sunburst : list (cell * cell);
  heatmap : Crosstab;
  prediction_tab : list element
}.

Section Charts.

(** The plotly calls of the first two tabs, each with what it is given:
    [px.treemap(tree_df, ...)], [px.pie(df, ...)], [px.sunburst(sun_df, ...)]
    and [px.imshow(heatmap_data, ...)]. Each may raise. *)
Variable px_treemap : DataFrame -> result unit.
Variable px_pie : frame -> result unit.
Variable px_sunburst : list (cell * cell) -> result unit.
Variable px_imshow : Crosstab -> result unit.

Definition page_data (read : csv_read) (assets : option Assets)
    (s : Selections) (pressed : bool) : result Page :=
  let df := fst (load_clean_data_or_empty read) in
  side <- sidebar df ;;
  tree <- tree_df df ;;
  _ <- px_treemap tree ;;
  _ <- px_pie df ;;
  sun <- sun_df df ;;
  _ <- px_sunburst sun ;;
  heat <- heatmap_data df ;;
  _ <- px_imshow heat ;;
  t3 <- tab3 assets s pressed ;;
  Ok (mkPage (snd (load_clean_data_or_empty read)) side tree sun heat t3).

End Charts.

(** What the sunburst shows for an entry of a column that holds some text:
    the trimmed text, or [Unknown] for a missing or blank entry. *)
Definition shown (c : cell) : str :=
  match c with
  | NaN => Unknown
  | Str t =>
      match strip t with
      | [] => Unknown
      | _ :: _ => strip t
      end
  end.

(** One record as [load_clean_data] leaves it. *)
Definition clean_row (data : DataFrame) (r : row) : row :=
  mkRow (clean_col data age_group r) (clean_col data education_level r)
        (clean_col data employment_status r) (clean_col data gender r)
        (clean_col data skill_alignment r) (clean_col data skill_training r)
        (clean_col data job_seeking_status r)
        (clean_col data issue_severity_perception r)
        (clean_col data proposed_solution r).

(** The nine header columns. *)
Definition header : list (row -> cell) :=
  [age_group; education_level; employment_status; gender; skill_alignment;
   skill_training; job_seeking_status; issue_severity_perception;
   proposed_solution].

(** The sum of all the cells of a table. *)
Definition total (t : Crosstab) : nat := list_sum (List.map (@list_sum) (counts t)).

Definition indicator (b : bool) : nat := if b then 1%nat else 0%nat.

(** Both fields of a record are present. *)
Definition both_present (f g : row -> cell) (r : row) : bool :=
  negb (isna (f r)) && negb (isna (g r)).

End app.

(* ================================================================= *)
(** ** A small survey, used to run the pipeline *)

Module Example.

Definition label_18_24 : str := lit "18" ++ [8211%N] ++ lit "24".
Definition label_35_44 : str := lit "35" ++ [8211%N] ++ lit "44".

Definition label_25_34 : str := lit "25" ++ [8211%N] ++ lit "34".

Definition r1 : row :=
  mkRow (Str label_18_24) (Str (lit "Undergraduate")) (Str (lit "Employed"))
        (Str (lit "Male")) (Str (lit "Yes")) (Str (lit "No"))
        (Str (lit "Yes")) (Str (lit "Yes")) (Str (lit "More jobs")).

(** An age group and an employment status outside the ordinal maps. *)
Definition r2 : row :=
  mkRow (Str label_35_44) (Str (lit "Postgraduate")) (Str (lit "Retired"))
        (Str (lit "Female")) (Str (lit "No")) (Str (lit "Yes"))
        (Str (lit "No")) (Str (lit "No")) NaN.

(** Padded text and missing entries. *)
Definition r3 : row :=
  mkRow (Str label_25_34) (Str (lit "School level")) (Str (lit "Student"))
        (Str (lit " Female ")) NaN (Str (lit "No"))
        (Str (lit "Yes")) NaN (Str (lit "Training")).

Definition blank : row := mkRow NaN NaN NaN NaN NaN NaN NaN NaN NaN.

Definition survey : DataFrame := [r1; blank; r2; r3].

(** The shallowest forest a fit can return: every tree is one leaf holding
    all the training rows. *)
Definition rf_stub (X : list (list Z)) (y : list Z)
  : result RandomForest.forest :=
  match y with
  | [] => Raise (ValueError (lit "Found array with 0 sample(s)"))
  | _ =>
      Ok (repeat
            (RandomForest.Leaf
               (RandomForest.mean
                  (List.map (fun i => nth i y 0%Z) (seq 0 (List.length y)))))
            RandomForest.n_estimators)
  end.

(** The selections that repeat the labels of [r1]. *)
Definition pick1 : app.Selections :=
  app.mkSel label_18_24 (lit "Undergraduate") (lit "Employed")
            (lit "Male") (lit "Yes") (lit "No") (lit "Yes").

(** The selections that repeat the labels of [r2]. *)
Definition pick2 : app.Selections :=
  app.mkSel label_35_44 (lit "Postgraduate") (lit "Retired")
            (lit "Female") (lit "No") (lit "Yes") (lit "No").

(** The labels of [r3] as the file has them, and as training fitted them. *)
Definition pick3_raw : app.Selections :=
  app.mkSel label_25_34 (lit "School level") (lit "Student")
            (lit " Female ") (lit "nan") (lit "No") (lit "Yes").

Definition pick3 : app.Selections :=
  app.mkSel label_25_34 (lit "School level") (lit "Student")
            (lit "Female") (lit "nan") (lit "No") (lit "Yes").

(** [pick1] with an employment status the map does not list. *)
Definition pick_retired : app.Selections :=
  app.mkSel label_18_24 (lit "Undergraduate") (lit "Retired")
            (lit "Male") (lit "Yes") (lit "No") (lit "Yes").

(** The bundle the script writes for [survey]. *)
Definition assets : Assets :=
  match train_model.main rf_stub (Some survey) with
  | Ok a => a
  | Raise _ => mkAssets [] [] [] [] [] []
  end.

(** The age labels as [encoding='latin1'] reads their UTF-8 bytes. *)
Definition latin1_18_24 : str := lit "18" ++ [226%N; 128%N; 147%N] ++ lit "24".

Definition r1_latin1 : row :=
  mkRow (Str latin1_18_24) (Str (lit "Undergraduate")) (Str (lit "Employed"))
        (Str (lit "Male")) (Str (lit "Yes")) (Str (lit "No"))
        (Str (lit "Yes")) (Str (lit "Yes")) (Str (lit "More jobs")).

Definition survey_latin1 : DataFrame := [r1_latin1; blank].

Definition latin1_25_34 : str := lit "25" ++ [226%N; 128%N; 147%N] ++ lit "34".

Definition r3_latin1 : row :=
  mkRow (Str latin1_25_34) (Str (lit "School level")) (Str (lit "Student"))
        (Str (lit " Female ")) NaN (Str (lit "No"))
        (Str (lit "Yes")) NaN (Str (lit "Training")).

(** A survey as [read_csv(..., encoding='latin1')] returns it, and the
    bundle the script writes for it. *)
Definition survey_read : DataFrame := [r1_latin1; blank; r3_latin1].

Definition assets_read : Assets :=
  match train_model.main rf_stub (Some survey_read) with
  | Ok a => a
  | Raise _ => mkAssets [] [] [] [] [] []
  end.

(** A frame whose solution column is entirely missing. *)
Definition survey_no_solution : DataFrame :=
  [ mkRow NaN (Str (lit "Undergraduate")) (Str (lit " Unemployed"))
          (Str (lit "  ")) NaN NaN NaN NaN NaN;
    mkRow NaN NaN (Str (lit "Student")) (Str (lit "Male")) NaN NaN NaN NaN NaN ].

(** A pickle that writes a marker byte, read back by [pickle_stub]. *)
Definition dump_stub (a : Assets) : list N := [128%N].

Definition pickle_stub (b : app.blob) : result Assets :=
  match b with
  | [] => Raise UnpicklingError
  | _ => Ok assets
  end.

End Example.

(* ================================================================= *)
(** * Properties *)

(** ** The ordering of strings *)

Lemma str_compare_eq (a b : str) : str_compare a b = Eq <-> a = b.
Proof. apply list_compare_refl, N.compare_eq_iff. Qed.

Lemma str_compare_refl (a : str) : str_compare a a = Eq.
Proof. now apply str_compare_eq. Qed.

Lemma str_compare_antisym (a b : str) :
  str_compare b a = CompOpp (str_compare a b).
Proof. apply list_compare_antisym; [apply N.compare_eq_iff | apply N.compare_antisym]. Qed.

Lemma N_compare_trans (x y z : N) (c : comparison) :
  (x ?= y)%N = c -> (y ?= z)%N = c -> (x ?= z)%N = c.
Proof.
  destruct c; intros H1 H2.
  - apply N.compare_eq_iff in H1, H2. subst. apply N.compare_refl.
  - rewrite N.compare_lt_iff in *. lia.
  - rewrite N.compare_gt_iff in *. lia.
Qed.

Lemma str_lt_trans (a b c : str) : str_lt a b -> str_lt b c -> str_lt a c.
Proof.
  unfold str_lt, str_compare.
  apply list_compare_trans;
    [apply N.compare_eq_iff | apply N_compare_trans | apply N.compare_antisym].
Qed.

Lemma str_lt_irrefl (a : str) : ~ str_lt a a.
Proof. unfold str_lt. rewrite str_compare_refl. discriminate. Qed.

Lemma str_gt_lt (a b : str) : str_compare a b = Gt -> str_lt b a.
Proof. unfold str_lt. intros H. rewrite str_compare_antisym, H. reflexivity. Qed.

Lemma str_eqb_eq (a b : str) : str_eqb a b = true <-> a = b.
Proof.
  unfold str_eqb. rewrite <- str_compare_eq.
  destruct (str_compare a b); split; congruence.
Qed.

Lemma str_eqb_refl (a : str) : str_eqb a a = true.
Proof. now apply str_eqb_eq. Qed.

Lemma str_eqb_neq (a b : str) : str_eqb a b = false <-> a <> b.
Proof.
  rewrite <- str_eqb_eq. destruct (str_eqb a b); split; congruence.
Qed.

(** ** Dictionaries *)

Lemma dict_get_in {V : Type} (d : dict V) (k : str) :
  In k (keys d) <-> exists v, dict_get d k = Some v.
Proof.
  induction d as [|[k' v'] d IH]; simpl.
  - split; [tauto | intros [v H]; discriminate].
  - destruct (str_eqb k k') eqn:E.
    + apply str_eqb_eq in E. subst. split; eauto.
    + apply str_eqb_neq in E. rewrite <- IH. split; [intros [H|H] | ]; try tauto.
      congruence.
Qed.

Lemma dict_get_binding {V : Type} (d : dict V) (k : str) (v : V) :
  dict_get d k = Some v -> In (k, v) d.
Proof.
  induction d as [|[k' v'] d IH]; simpl; [discriminate|].
  destruct (str_eqb k k') eqn:E.
  - apply str_eqb_eq in E. intros [= ->]. left. now subst.
  - intros H. right. now apply IH.
Qed.

Lemma dict_get_none {V : Type} (d : dict V) (k : str) :
  ~ In k (keys d) <-> dict_get d k = None.
Proof.
  rewrite dict_get_in. destruct (dict_get d k) as [v|]; split; try congruence.
  - intros H. exfalso. eauto.
  - intros _ [v H]. discriminate.
Qed.

Lemma getitem_in {V : Type} (d : dict V) (k : str) :
  In k (keys d) <-> exists v, getitem d k = Ok v.
Proof.
  rewrite dict_get_in. unfold getitem.
  destruct (dict_get d k) as [w|]; split; intros [v H]; try discriminate; eauto.
Qed.

Lemma getitem_binding {V : Type} (d : dict V) (k : str) :
  In k (keys d) -> exists v, getitem d k = Ok v /\ In (k, v) d.
Proof.
  intros H. apply dict_get_in in H as [v Hv]. exists v. unfold getitem.
  rewrite Hv. split; [reflexivity | now apply dict_get_binding].
Qed.

Lemma getitem_absent {V : Type} (d : dict V) (k : str) :
  ~ In k (keys d) -> getitem d k = Raise (KeyError k).
Proof. intros H. unfold getitem. apply dict_get_none in H. now rewrite H. Qed.

(** ** [LabelEncoder] *)

Module LabelEncoderFacts.
Import LabelEncoder.

Lemma insert_in (x y : str) (l : list str) :
  In x (insert y l) <-> x = y \/ In x l.
Proof.
  induction l as [|z l IH]; simpl.
  - intuition congruence.
  - destruct (str_compare y z) eqn:E; simpl.
    + apply str_compare_eq in E. subst. intuition congruence.
    + intuition congruence.
    + rewrite IH. intuition congruence.
Qed.

Lemma insert_increasing (y : str) (l : list str) :
  increasing l -> increasing (insert y l).
Proof.
  unfold increasing. induction 1 as [|z l Hs IH Hz]; simpl.
  - repeat constructor.
  - destruct (str_compare y z) eqn:E.
    + now constructor.
    + constructor; [now constructor|].
      constructor; [exact E|].
      rewrite Forall_forall in *. intros w Hw.
      apply str_lt_trans with z; auto.
    + constructor; [exact IH|].
      rewrite Forall_forall in *. intros w Hw.
      apply insert_in in Hw. destruct Hw as [->|Hw]; auto.
      now apply str_gt_lt.
Qed.

Lemma unique_in (x : str) (values : list str) :
  In x (unique values) <-> In x values.
Proof.
  induction values as [|v values IH]; simpl; [tauto|].
  rewrite insert_in, IH. intuition congruence.
Qed.

Lemma unique_increasing (values : list str) : increasing (unique values).
Proof.
  induction values; simpl; [constructor | now apply insert_increasing].
Qed.

Lemma increasing_NoDup (l : list str) : increasing l -> NoDup l.
Proof.
  induction 1 as [|z l Hs IH Hz]; constructor; auto.
  intros Hin. rewrite Forall_forall in Hz.
  exact (str_lt_irrefl (Hz _ Hin)).
Qed.

Lemma index_of_some (v : str) (l : list str) (i : nat) :
  index_of v l = Some i -> nth_error l i = Some v.
Proof.
  revert i. induction l as [|y l IH]; simpl; intros i; [discriminate|].
  destruct (str_eqb v y) eqn:E.
  - apply str_eqb_eq in E. intros [= <-]. now subst.
  - destruct (index_of v l); simpl; [|discriminate].
    intros [= <-]. simpl. now apply IH.
Qed.

Lemma index_of_none (v : str) (l : list str) :
  index_of v l = None <-> ~ In v l.
Proof.
  induction l as [|y l IH]; simpl; [tauto|].
  destruct (str_eqb v y) eqn:E.
  - apply str_eqb_eq in E. subst. split; [discriminate | tauto].
  - apply str_eqb_neq in E.
    destruct (index_of v l); simpl.
    + split; [discriminate|]. intros H. exfalso. apply H. right.
      destruct IH as [_ IH]. destruct (in_dec (list_eq_dec N.eq_dec) v l); auto.
      now specialize (IH n0).
    + split; auto. intros _ [H|H]; [congruence|]. now apply IH.
Qed.

Lemma index_of_in (v : str) (l : list str) :
  In v l -> exists i, index_of v l = Some i.
Proof.
  intros H. destruct (index_of v l) eqn:E; eauto.
  apply index_of_none in E. contradiction.
Qed.



End LabelEncoderFacts.

(** ** Results *)

Lemma Ok_inj {A : Type} (a b : A) : Ok a = Ok b -> a = b.
Proof. now intros [= ->]. Qed.

Lemma forallb_false {A : Type} (f : A -> bool) (l : list A) :
  forallb f l = false -> exists x, In x l /\ f x = false.
Proof.
  induction l as [|a l IH]; simpl; [discriminate|].
  destruct (f a) eqn:E; simpl.
  - intros H. destruct (IH H) as [x [Hx Hf]]. exists x. auto.
  - intros _. exists a. auto.
Qed.

Lemma sequence_map_ok {A B : Type} (f : A -> result B) (g : A -> B) (l : list A) :
  (forall x, In x l -> f x = Ok (g x)) ->
  sequence (List.map f l) = Ok (List.map g l).
Proof.
  induction l as [|a l IH]; simpl; intros H; [reflexivity|].
  rewrite (H a) by auto. simpl. rewrite IH by auto. reflexivity.
Qed.

Module FitFacts.
Import LabelEncoder LabelEncoderFacts.

Lemma transform_known (le : t) (v : str) :
  In v (classes_ le) ->
  exists i, transform le v = Ok i /\ decode le i = Some v
            /\ (i < List.length (classes_ le))%nat.
Proof.
  intros H. destruct (index_of_in _ _ H) as [i Hi].
  exists i. unfold transform, decode. rewrite Hi.
  pose proof (index_of_some _ _ Hi) as Hn.
  repeat split; auto. apply nth_error_Some. congruence.
Qed.

Lemma transform_unseen (le : t) (v : str) :
  ~ In v (classes_ le) -> transform le v = Raise (ValueError v).
Proof.
  intros H. unfold transform. apply index_of_none in H. now rewrite H.
Qed.

Lemma transform_codes (le : t) (y : list str) :
  (forall v, In v y -> In v (classes_ le)) ->
  sequence (List.map (transform le) y) = Ok (codes le y).
Proof.
  intros H. unfold codes. apply sequence_map_ok.
  intros v Hv. unfold transform.
  destruct (index_of_in _ _ (H v Hv)) as [i ->]. reflexivity.
Qed.

(** Fitting and encoding the same column never raises. *)
Lemma fit_transform_ok (y : list str) :
  fit_transform y = Ok (fit y, codes (fit y) y).
Proof.
  unfold fit_transform. rewrite transform_codes; [reflexivity|].
  intros v Hv. simpl. now apply unique_in.
Qed.

Lemma codes_nth (le : t) (y : list str) (i : nat) (v : str) (c : nat) :
  nth_error y i = Some v -> transform le v = Ok c ->
  nth_error (codes le y) i = Some c.
Proof.
  intros Hv Hc. unfold codes. rewrite nth_error_map, Hv. simpl.
  unfold transform in Hc. destruct (index_of v (classes_ le)); congruence.
Qed.

End FitFacts.

(** ** Whitespace trimming *)

Lemma lstrip_idem (s : str) : lstrip (lstrip s) = lstrip s.
Proof.
  induction s as [|c s IH]; simpl; [reflexivity|].
  destruct (isspace c) eqn:E; [exact IH|]. simpl. now rewrite E.
Qed.

Lemma lstrip_snoc (s : str) (c : N) :
  isspace c = false -> exists u, lstrip (s ++ [c]) = u ++ [c].
Proof.
  intros Hc. induction s as [|x s [u IH]]; simpl.
  - rewrite Hc. now exists [].
  - destruct (isspace x); [eauto|]. now exists (x :: s).
Qed.

Lemma rstrip_idem (s : str) : rstrip (rstrip s) = rstrip s.
Proof. unfold rstrip. now rewrite rev_involutive, lstrip_idem. Qed.

Lemma lstrip_rstrip (s : str) : lstrip s = s -> lstrip (rstrip s) = rstrip s.
Proof.
  destruct s as [|c s]; [reflexivity|]. simpl.
  destruct (isspace c) eqn:E.
  - intros H. exfalso.
    assert (Hl : forall t, (List.length (lstrip t) <= List.length t)%nat).
    { induction t as [|x t IH]; simpl; [lia|]. destruct (isspace x); simpl; lia. }
    specialize (Hl s). rewrite H in Hl. simpl in Hl. lia.
  - intros _. unfold rstrip. simpl rev.
    destruct (lstrip_snoc (rev s) c E) as [u ->].
    rewrite rev_app_distr. simpl. now rewrite E.
Qed.

Lemma strip_trimmed (s : str) : trimmed (strip s).
Proof.
  unfold trimmed, strip. split.
  - apply lstrip_rstrip, lstrip_idem.
  - apply rstrip_idem.
Qed.

Lemma lstrip_decompose (s : str) :
  exists pre, s = pre ++ lstrip s /\ forallb isspace pre = true.
Proof.
  induction s as [|c s [pre [Hs Hp]]]; simpl.
  - now exists [].
  - destruct (isspace c) eqn:E.
    + exists (c :: pre). simpl. rewrite E, Hp. split; [now f_equal | reflexivity].
    + now exists [].
Qed.

Lemma rstrip_decompose (s : str) :
  exists suf, s = rstrip s ++ suf /\ forallb isspace suf = true.
Proof.
  destruct (lstrip_decompose (rev s)) as [pre [Hs Hp]].
  exists (rev pre). unfold rstrip. split.
  - rewrite <- rev_app_distr, <- Hs. now rewrite rev_involutive.
  - rewrite forallb_forall in *. intros x Hx. apply Hp. now apply in_rev.
Qed.

Lemma lstrip_head (s : str) (c : N) (t : str) :
  lstrip s = c :: t -> isspace c = false.
Proof.
  induction s as [|x s IH]; simpl; [discriminate|].
  destruct (isspace x) eqn:E; [exact IH|]. now intros [= <- _].
Qed.

Lemma strip_head (s : str) (c : N) (t : str) :
  strip s = c :: t -> isspace c = false.
Proof.
  intros H. destruct (strip_trimmed s) as [Hl _]. rewrite H in Hl.
  exact (lstrip_head _ Hl).
Qed.

Lemma strip_last (s : str) (c : N) (t : str) :
  strip s = t ++ [c] -> isspace c = false.
Proof.
  intros H. destruct (strip_trimmed s) as [_ Hr]. rewrite H in Hr.
  unfold rstrip in Hr. apply (f_equal (@rev N)) in Hr.
  rewrite rev_involutive, rev_app_distr in Hr.
  change (rev [c] ++ rev t) with (c :: rev t) in Hr.
  exact (lstrip_head _ Hr).
Qed.

Lemma strip_idem (s : str) : strip (strip s) = strip s.
Proof.
  destruct (strip_trimmed s) as [Hl Hr]. unfold strip at 1. now rewrite Hl.
Qed.



(* ================================================================= *)
(** * The categorical encoders *)

Section Encoders.
Import LabelEncoder LabelEncoderFacts FitFacts.


(** C7. Decoding the code of a fitted label gives the label back. *)
Theorem decode_encode_roundtrip (le : t) (label : str) :
  In label (classes_ le) ->
  exists code, transform le label = Ok code /\ decode le code = Some label.
Proof.
  intros H. destruct (transform_known le label H) as [i [H1 [H2 _]]]. eauto.
Qed.

(** C1. A value outside the fitted label set is not encoded: the encoder
    raises (scikit-learn's [ValueError], naming the value), and so does the
    dashboard's use of the bundle's encoder; nothing is substituted. *)
Theorem unseen_label_raises (assets : Assets) (col : string) (le : t) (v : str) :
  getitem (encoders assets) (lit col) = Ok le ->
  ~ In v (classes_ le) ->
  transform le v = Raise (ValueError v)
  /\ app.encode assets col v = Raise (ValueError v).
Proof.
  intros Hle Hv. pose proof (transform_unseen le v Hv) as Ht.
  split; [exact Ht|]. unfold app.encode. rewrite Hle. simpl. now rewrite Ht.
Qed.


End Encoders.

(* ================================================================= *)
(** * The training script *)

Module TrainFacts.
Import LabelEncoder FitFacts train_model.

Lemma encode_col_ok (df : DataFrame) (s : loop_state) (col : str) (f : row -> cell) :
  getitem columns col = Ok f ->
  encode_col df (Ok s) col
  = Ok (setitem (fst s) col (encoder_of f df), setitem (snd s) col (codes_of f df)).
Proof.
  intros Hf. unfold encode_col. simpl. rewrite Hf. simpl.
  rewrite fit_transform_ok. reflexivity.
Qed.

Lemma encode_all_ok (df : DataFrame) :
  encode_all df
  = Ok ([ (lit "gender", encoder_of gender df);
          (lit "skill_alignment", encoder_of skill_alignment df);
          (lit "skill_training", encoder_of skill_training df);
          (lit "job_seeking_status", encoder_of job_seeking_status df) ],
        mapped_cols df ++
        [ (lit "gender", codes_of gender df);
          (lit "skill_alignment", codes_of skill_alignment df);
          (lit "skill_training", codes_of skill_training df);
          (lit "job_seeking_status", codes_of job_seeking_status df) ]).
Proof.
  unfold encode_all, categorical_cols. cbn [fold_left].
  rewrite (@encode_col_ok df _ _ gender) by reflexivity.
  rewrite (@encode_col_ok df _ _ skill_alignment) by reflexivity.
  rewrite (@encode_col_ok df _ _ skill_training) by reflexivity.
  rewrite (@encode_col_ok df _ _ job_seeking_status) by reflexivity.
  reflexivity.
Qed.

Lemma design_ok (df : DataFrame) :
  design df
  = Ok ([ (lit "gender", encoder_of gender df);
          (lit "skill_alignment", encoder_of skill_alignment df);
          (lit "skill_training", encoder_of skill_training df);
          (lit "job_seeking_status", encoder_of job_seeking_status df) ],
        List.map (row_at (X_cols df)) (seq 0 (List.length df)),
        List.map target_score df).
Proof.
  unfold design. rewrite encode_all_ok. reflexivity.
Qed.

Lemma main_ok (rf_fit : list (list Z) -> list Z -> result RandomForest.forest)
      (raw : DataFrame) (a : Assets) :
  main rf_fit (Some raw) = Ok a ->
  let df := dropna_all raw in
  exists m,
    rf_fit (List.map (row_at (X_cols df)) (seq 0 (List.length df)))
           (List.map target_score df) = Ok m
    /\ a = mkAssets m
             [ (lit "gender", encoder_of gender df);
               (lit "skill_alignment", encoder_of skill_alignment df);
               (lit "skill_training", encoder_of skill_training df);
               (lit "job_seeking_status", encoder_of job_seeking_status df) ]
             age_map edu_map emp_map features.
Proof.
  unfold main. rewrite design_ok. cbn [bind fst snd].
  destruct (rf_fit _ _) as [m|e] eqn:E; [|discriminate].
  intros [= <-]. exists m. split; reflexivity.
Qed.

(** The code written back for a record is the code of its label. *)
Lemma row_code (f : row -> cell) (df : DataFrame) (i : nat) (r : row) :
  nth_error df i = Some r ->
  exists c, transform (encoder_of f df) (normalise (f r)) = Ok c
            /\ nth i (codes_of f df) 0%Z = Z.of_nat c.
Proof.
  intros Hr.
  assert (Hin : In (normalise (f r)) (classes_ (encoder_of f df))).
  { apply LabelEncoderFacts.unique_in. unfold label_column.
    apply in_map_iff. exists r. split; [reflexivity|].
    eapply nth_error_In; eauto. }
  destruct (transform_known _ _ Hin) as [c [Hc _]].
  exists c. split; [exact Hc|].
  apply nth_error_nth. unfold codes_of. rewrite nth_error_map.
  erewrite codes_nth; [reflexivity | | exact Hc].
  unfold label_column. rewrite nth_error_map, Hr. reflexivity.
Qed.

Lemma X_row (df : DataFrame) (i : nat) (r : row) :
  nth_error df i = Some r ->
  exists cg cs ct cj,
    transform (encoder_of gender df) (normalise (gender r)) = Ok cg
    /\ transform (encoder_of skill_alignment df) (normalise (skill_alignment r)) = Ok cs
    /\ transform (encoder_of skill_training df) (normalise (skill_training r)) = Ok ct
    /\ transform (encoder_of job_seeking_status df)
                 (normalise (job_seeking_status r)) = Ok cj
    /\ nth_error (List.map (row_at (X_cols df)) (seq 0 (List.length df))) i
       = Some [age_numeric r; edu_numeric r; emp_numeric r;
               Z.of_nat cg; Z.of_nat cs; Z.of_nat ct; Z.of_nat cj].
Proof.
  intros Hr.
  destruct (row_code gender df i Hr) as [cg [Hg Ng]].
  destruct (row_code skill_alignment df i Hr) as [cs [Hs Ns]].
  destruct (row_code skill_training df i Hr) as [ct [Ht Nt]].
  destruct (row_code job_seeking_status df i Hr) as [cj [Hj Nj]].
  exists cg, cs, ct, cj. repeat split; auto.
  assert (Hi : (i < List.length df)%nat) by (apply nth_error_Some; congruence).
  rewrite nth_error_map, nth_error_seq.
  replace (i <? List.length df)%nat with true by (symmetry; now apply Nat.ltb_lt).
  cbn [option_map Nat.add]. unfold row_at, X_cols. cbn [List.map].
  rewrite Ng, Ns, Nt, Nj.
  assert (Hm : forall g : row -> Z, nth i (List.map g df) 0%Z = g r).
  { intros g. apply nth_error_nth. now rewrite nth_error_map, Hr. }
  now rewrite !Hm.
Qed.

Lemma dict_get_values (k : str) (v : Z) :
  dict_get severity_map k = Some v -> (v = 5 \/ v = 3 \/ v = 1)%Z.
Proof.
  unfold severity_map. simpl.
  repeat match goal with
         | |- context [if ?b then _ else _] => destruct b
         end; intros [= <-]; auto.
Qed.

(** The target takes one of the three severity values. *)
Lemma target_score_values (r : row) :
  (target_score r = 1 \/ target_score r = 3 \/ target_score r = 5)%Z.
Proof.
  unfold target_score, series_map.
  destruct (issue_severity_perception r) as [|k]; [right; left; reflexivity|].
  destruct (dict_get severity_map k) as [v|] eqn:E;
    [|right; left; reflexivity].
  apply dict_get_values in E. unfold fillna. tauto.
Qed.

End TrainFacts.

(* ================================================================= *)
(** * The forest *)

Module ForestFacts.
Import RandomForest.

Lemma Zsum_bounds (zs : list Z) :
  Forall (fun z => 1 <= z <= 5)%Z zs ->
  (Z.of_nat (List.length zs) <= Zsum zs <= 5 * Z.of_nat (List.length zs))%Z.
Proof.
  induction 1 as [|z zs Hz _ IH]; simpl; [lia|].
  change (fold_right Z.add 0%Z zs) with (Zsum zs). lia.
Qed.

Lemma mean_in_range (zs : list Z) :
  zs <> [] -> Forall (fun z => 1 <= z <= 5)%Z zs -> in_range (mean zs).
Proof.
  intros Hne Hz. pose proof (Zsum_bounds Hz) as [Hlo Hhi].
  assert (Hn : (0 < Z.of_nat (List.length zs))%Z).
  { destruct zs; [congruence | simpl; lia]. }
  assert (Hq : (0 < inject_Z (Z.of_nat (List.length zs)))%Q).
  { change 0%Q with (inject_Z 0). now rewrite <- Zlt_Qlt. }
  unfold in_range, mean. split.
  - apply Qle_shift_div_l; [exact Hq|].
    rewrite Qmult_1_l. now rewrite <- Zle_Qle.
  - apply Qle_shift_div_r; [exact Hq|].
    change 5%Q with (inject_Z 5). rewrite <- inject_Z_mult.
    now rewrite <- Zle_Qle.
Qed.

Lemma Qsum_bounds (qs : list Q) :
  Forall in_range qs ->
  (inject_Z (Z.of_nat (List.length qs)) <= Qsum qs)%Q
  /\ (Qsum qs <= 5 * inject_Z (Z.of_nat (List.length qs)))%Q.
Proof.
  induction 1 as [|q qs [Hq1 Hq2] _ [IH1 IH2]].
  - simpl. split; [apply Qle_refl | discriminate].
  - cbn [List.length Qsum fold_right].
    change (fold_right Qplus 0%Q qs) with (Qsum qs).
    rewrite Nat2Z.inj_succ. unfold Z.succ. rewrite inject_Z_plus.
    change (inject_Z 1) with 1%Q. split; lra.
Qed.

Lemma grown_in_range (y : list Z) (t : tree) (x : list Z) :
  Forall (fun z => 1 <= z <= 5)%Z y -> grown y t -> in_range (predict_tree t x).
Proof.
  intros Hy. induction 1 as [samples Hne Hs | f thr l r _ IHl _ IHr]; simpl.
  - apply mean_in_range.
    + destruct samples; [congruence | discriminate].
    + apply Forall_map. rewrite Forall_forall in *. intros i Hi.
      apply Hy, nth_In, Hs, Hi.
  - destruct (Qle_bool _ thr); assumption.
Qed.

(** A forest fitted on targets between 1 and 5 predicts between 1 and 5. *)
Lemma fitted_in_range (y : list Z) (m : forest) (x : list Z) :
  Forall (fun z => 1 <= z <= 5)%Z y -> fitted y m -> in_range (predict m x).
Proof.
  intros Hy [Hlen Hg].
  assert (Hall : Forall in_range (List.map (fun t => predict_tree t x) m)).
  { apply Forall_map. apply Forall_forall. intros t Ht.
    apply grown_in_range with y; [exact Hy|].
    rewrite Forall_forall in Hg. now apply Hg. }
  pose proof (Qsum_bounds Hall) as [H1 H2]. rewrite length_map in H1, H2.
  assert (Hq : (0 < inject_Z (Z.of_nat (List.length m)))%Q).
  { change 0%Q with (inject_Z 0). rewrite <- Zlt_Qlt, Hlen. reflexivity. }
  unfold in_range, predict. split.
  - apply Qle_shift_div_l; [exact Hq|]. now rewrite Qmult_1_l.
  - apply Qle_shift_div_r; [exact Hq | exact H2].
Qed.

Lemma targets_in_range (df : DataFrame) :
  Forall (fun z => 1 <= z <= 5)%Z (List.map train_model.target_score df).
Proof.
  apply Forall_map, Forall_forall. intros r _.
  pose proof (TrainFacts.target_score_values r). lia.
Qed.

Lemma rf_stub_fitted (X : list (list Z)) (y : list Z) (m : forest) :
  Example.rf_stub X y = Ok m -> fitted y m.
Proof.
  unfold Example.rf_stub. destruct y as [|z y0]; [discriminate|].
  remember (z :: y0) as y eqn:Ey. intros H. apply Ok_inj in H. subst m.
  split; [apply repeat_length|].
  apply Forall_forall. intros t Ht. apply repeat_spec in Ht. subst t.
  apply grown_leaf.
  - subst y. discriminate.
  - apply Forall_forall. intros i Hi. apply in_seq in Hi. lia.
Qed.

End ForestFacts.

(* ================================================================= *)
(** * The dashboard *)

Module AppFacts.
Import LabelEncoder FitFacts app.

Lemma menus_inv (a : Assets) (m : Menus) :
  menus a = Ok m ->
  exists lg ls lt lj,
    getitem (encoders a) (lit "gender") = Ok lg
    /\ getitem (encoders a) (lit "skill_alignment") = Ok ls
    /\ getitem (encoders a) (lit "skill_training") = Ok lt
    /\ getitem (encoders a) (lit "job_seeking_status") = Ok lj
    /\ m = mkMenus (keys (age_map a)) (keys (edu_map a)) (keys (emp_map a))
                   (classes_ lg) (classes_ ls) (classes_ lt) (classes_ lj).
Proof.
  unfold menus, classes_of.
  destruct (getitem (encoders a) (lit "gender")) as [lg|]; [|discriminate].
  destruct (getitem (encoders a) (lit "skill_alignment")) as [ls|]; [|discriminate].
  destruct (getitem (encoders a) (lit "skill_training")) as [lt|]; [|discriminate].
  destruct (getitem (encoders a) (lit "job_seeking_status")) as [lj|]; [|discriminate].
  cbn [bind]. intros H. apply Ok_inj in H. subst m.
  exists lg, ls, lt, lj. repeat split; reflexivity.
Qed.

Lemma encode_known (a : Assets) (col : string) (le : t) (v : str) :
  getitem (encoders a) (lit col) = Ok le -> In v (classes_ le) ->
  exists c, transform le v = Ok c /\ encode a col v = Ok (Z.of_nat c).
Proof.
  intros Hle Hv. destruct (transform_known le v Hv) as [c [Hc _]].
  exists c. split; [exact Hc|]. unfold encode. rewrite Hle. cbn [bind].
  now rewrite Hc.
Qed.

Lemma encode_inv (a : Assets) (col : string) (v : str) (z : Z) :
  encode a col v = Ok z ->
  exists le c, getitem (encoders a) (lit col) = Ok le
               /\ transform le v = Ok c /\ z = Z.of_nat c.
Proof.
  unfold encode.
  destruct (getitem (encoders a) (lit col)) as [le|] eqn:El; [|discriminate].
  cbn [bind]. destruct (transform le v) as [c|] eqn:Ec; [|discriminate].
  cbn [bind]. intros H. apply Ok_inj in H.
  exists le, c. repeat split; congruence.
Qed.

Lemma x_in_ok (a : Assets) (s : Selections) (va ve vp cg cs ct cj : Z) :
  getitem (age_map a) (age s) = Ok va ->
  getitem (edu_map a) (edu s) = Ok ve ->
  getitem (emp_map a) (emp s) = Ok vp ->
  encode a "gender" (gen s) = Ok cg ->
  encode a "skill_alignment" (skl s) = Ok cs ->
  encode a "skill_training" (trn s) = Ok ct ->
  encode a "job_seeking_status" (sk s) = Ok cj ->
  x_in a s = Ok [va; ve; vp; cg; cs; ct; cj].
Proof.
  intros H1 H2 H3 H4 H5 H6 H7. unfold x_in. cbn [sequence].
  rewrite H1, H2, H3, H4, H5, H6, H7. reflexivity.
Qed.

Lemma x_in_inv (a : Assets) (s : Selections) (x : list Z) :
  x_in a s = Ok x ->
  exists va ve vp cg cs ct cj,
    getitem (age_map a) (age s) = Ok va
    /\ getitem (edu_map a) (edu s) = Ok ve
    /\ getitem (emp_map a) (emp s) = Ok vp
    /\ encode a "gender" (gen s) = Ok cg
    /\ encode a "skill_alignment" (skl s) = Ok cs
    /\ encode a "skill_training" (trn s) = Ok ct
    /\ encode a "job_seeking_status" (sk s) = Ok cj
    /\ x = [va; ve; vp; cg; cs; ct; cj].
Proof.
  unfold x_in. cbn [sequence].
  destruct (getitem (age_map a) (age s)) as [va|]; [|discriminate].
  destruct (getitem (edu_map a) (edu s)) as [ve|]; [|discriminate].
  destruct (getitem (emp_map a) (emp s)) as [vp|]; [|discriminate].
  destruct (encode a "gender" (gen s)) as [cg|]; [|discriminate].
  destruct (encode a "skill_alignment" (skl s)) as [cs|]; [|discriminate].
  destruct (encode a "skill_training" (trn s)) as [ct|]; [|discriminate].
  destruct (encode a "job_seeking_status" (sk s)) as [cj|]; [|discriminate].
  cbn [bind]. intros H. apply Ok_inj in H. subst x.
  exists va, ve, vp, cg, cs, ct, cj. repeat split; reflexivity.
Qed.

(** The mapped column holds the looked-up code when the label is a key. *)
Lemma ordinal_known (m : dict Z) (d : Z) (k : str) (v : Z) :
  getitem m k = Ok v -> fillna d (series_map m (Str k)) = v.
Proof.
  unfold getitem, series_map. destruct (dict_get m k); [|discriminate].
  intros H. apply Ok_inj in H. now subst.
Qed.

Lemma ordinal_absent (m : dict Z) (d : Z) (c : cell) :
  (forall k, c = Str k -> ~ In k (keys m)) -> fillna d (series_map m c) = d.
Proof.
  destruct c as [|k]; intros H; [reflexivity|]. simpl.
  specialize (H k eq_refl). apply dict_get_none in H. now rewrite H.
Qed.

End AppFacts.

Section Inference.
Import LabelEncoder FitFacts app AppFacts.

(** C10. The labels offered by the seven menus come from the bundle (the keys
    of the ordinal maps, the fitted classes of the encoders); for selections
    taken from the menus every lookup and every transform of the prediction
    step succeeds: the row has seven entries and the tab does not raise. *)
Theorem menu_selections_never_raise (assets : Assets) (m : Menus) (s : Selections) :
  menus assets = Ok m ->
  selectable m s ->
  (age_options m = keys (age_map assets)
   /\ edu_options m = keys (edu_map assets)
   /\ emp_options m = keys (emp_map assets)
   /\ classes_of assets "gender" = Ok (gen_options m)
   /\ classes_of assets "skill_alignment" = Ok (skl_options m)
   /\ classes_of assets "skill_training" = Ok (trn_options m)
   /\ classes_of assets "job_seeking_status" = Ok (sk_options m))
  /\ exists x,
       x_in assets s = Ok x
       /\ List.length x = 7%nat
       /\ prediction assets s = Ok (RandomForest.predict (model assets) x)
       /\ raises (tab3 (Some assets) s true) = false.
Proof.
  intros Hm Hs. pose proof Hm as Hm'.
  apply menus_inv in Hm' as (lg & ls & lt & lj & Hg & Hsk & Ht & Hj & ->).
  destruct Hs as (Ha & He & Hp & Hgen & Hskl & Htrn & Hsk').
  cbn [age_options edu_options emp_options gen_options skl_options trn_options
       sk_options] in *.
  split.
  { unfold classes_of. rewrite Hg, Hsk, Ht, Hj. repeat split; reflexivity. }
  apply getitem_in in Ha as [va Ha]. apply getitem_in in He as [ve He].
  apply getitem_in in Hp as [vp Hp].
  destruct (encode_known assets "gender" _ Hg Hgen) as [cg [_ Hcg]].
  destruct (encode_known assets "skill_alignment" _ Hsk Hskl) as [cs [_ Hcs]].
  destruct (encode_known assets "skill_training" _ Ht Htrn) as [ct [_ Hct]].
  destruct (encode_known assets "job_seeking_status" _ Hj Hsk') as [cj [_ Hcj]].
  pose proof (x_in_ok assets s Ha He Hp Hcg Hcs Hct Hcj) as Hx.
  eexists. split; [exact Hx|]. split; [reflexivity|].
  assert (Hpred : prediction assets s
                  = Ok (RandomForest.predict (model assets)
                          [va; ve; vp; Z.of_nat cg; Z.of_nat cs; Z.of_nat ct;
                           Z.of_nat cj])).
  { unfold prediction. now rewrite Hx. }
  split; [exact Hpred|]. unfold tab3. rewrite Hm. cbn [bind].
  rewrite Hpred. reflexivity.
Qed.

Lemma menu_selections_never_raise_witness :
  exists x, x_in Example.assets Example.pick3 = Ok x
            /\ List.length x = 7%nat
            /\ prediction Example.assets Example.pick3
               = Ok (RandomForest.predict (model Example.assets) x)
            /\ raises (tab3 (Some Example.assets) Example.pick3 true) = false.
Proof.
  apply (@menu_selections_never_raise Example.assets
           (mkMenus (keys train_model.age_map) (keys train_model.edu_map)
                    (keys train_model.emp_map)
                    [lit "Female"; lit "Male"] [lit "No"; lit "Yes"; lit "nan"]
                    [lit "No"; lit "Yes"] [lit "No"; lit "Yes"])
           Example.pick3).
  - vm_compute. reflexivity.
  - vm_compute. intuition.
Defined.

(** C8. When the bundle file is missing, or unpickling it raises, [load_assets]
    returns [None] instead of raising, and the prediction tab then shows the
    "assets not found" message only: no menu, no prediction, no exception. *)
Theorem missing_or_corrupt_bundle_disables_prediction
    (pickle_load : blob -> result Assets) (disk : option blob)
    (s : Selections) (pressed : bool) :
  (disk = None \/ exists b, disk = Some b /\ raises (pickle_load b) = true) ->
  load_assets pickle_load disk = None
  /\ tab3 (load_assets pickle_load disk) s pressed
     = Ok [st_error "Model assets not found. Run the training script first."].
Proof.
  intros H.
  assert (Hl : load_assets pickle_load disk = None).
  { destruct H as [-> | [b [-> Hb]]]; unfold load_assets, open_rb; cbn [bind].
    - reflexivity.
    - destruct (pickle_load b); [discriminate | reflexivity]. }
  rewrite Hl. split; reflexivity.
Qed.

Lemma missing_or_corrupt_bundle_disables_prediction_witness :
  (load_assets Example.pickle_stub (Some []) = None
   /\ tab3 (load_assets Example.pickle_stub (Some [])) Example.pick1 true
      = Ok [st_error "Model assets not found. Run the training script first."])
  /\ (load_assets Example.pickle_stub None = None
      /\ tab3 (load_assets Example.pickle_stub None) Example.pick1 true
         = Ok [st_error "Model assets not found. Run the training script first."]).
Proof.
  split.
  - apply (@missing_or_corrupt_bundle_disables_prediction
             Example.pickle_stub (Some []) Example.pick1 true).
    right. exists []. split; reflexivity.
  - apply (@missing_or_corrupt_bundle_disables_prediction
             Example.pickle_stub None Example.pick1 true).
    left. reflexivity.
Defined.

End Inference.

(* ================================================================= *)
(** * Ordinal fields *)

Section Ordinals.
Import app AppFacts.

(** C2, as the code has it. In the training script an ordinal label that is
    a key of its map gets the mapped code, and any other entry (an unlisted
    label or a missing value) gets the field's default: 1 for age, 2 for
    education, 1 for employment; nothing raises. In the dashboard the three
    selections index the bundle's maps directly: a key gets its mapped code,
    any other label raises [KeyError] and no default is substituted. *)
Theorem ordinal_codes_default_in_training_only
    (r : row) (assets : Assets) (s : Selections) :
  (forall k, age_group r = Str k -> In k (keys train_model.age_map) ->
             getitem train_model.age_map k = Ok (train_model.age_numeric r))
  /\ ((forall k, age_group r = Str k -> ~ In k (keys train_model.age_map)) ->
      train_model.age_numeric r = 1%Z)
  /\ (forall k, education_level r = Str k -> In k (keys train_model.edu_map) ->
                getitem train_model.edu_map k = Ok (train_model.edu_numeric r))
  /\ ((forall k, education_level r = Str k -> ~ In k (keys train_model.edu_map)) ->
      train_model.edu_numeric r = 2%Z)
  /\ (forall k, employment_status r = Str k -> In k (keys train_model.emp_map) ->
                getitem train_model.emp_map k = Ok (train_model.emp_numeric r))
  /\ ((forall k, employment_status r = Str k -> ~ In k (keys train_model.emp_map)) ->
      train_model.emp_numeric r = 1%Z)
  /\ (In (age s) (keys (age_map assets)) ->
      exists v, getitem (age_map assets) (age s) = Ok v
                /\ In (age s, v) (age_map assets))
  /\ (In (edu s) (keys (edu_map assets)) ->
      exists v, getitem (edu_map assets) (edu s) = Ok v
                /\ In (edu s, v) (edu_map assets))
  /\ (In (emp s) (keys (emp_map assets)) ->
      exists v, getitem (emp_map assets) (emp s) = Ok v
                /\ In (emp s, v) (emp_map assets))
  /\ (~ In (age s) (keys (age_map assets)) ->
      x_in assets s = Raise (KeyError (age s)))
  /\ (In (age s) (keys (age_map assets)) ->
      ~ In (edu s) (keys (edu_map assets)) ->
      x_in assets s = Raise (KeyError (edu s)))
  /\ (In (age s) (keys (age_map assets)) ->
      In (edu s) (keys (edu_map assets)) ->
      ~ In (emp s) (keys (emp_map assets)) ->
      x_in assets s = Raise (KeyError (emp s))).
Proof.
  assert (Hk : forall (m : dict Z) d c k, c = Str k -> In k (keys m) ->
                 getitem m k = Ok (fillna d (series_map m c))).
  { intros m d c k -> Hin. apply getitem_in in Hin as [v Hv].
    now rewrite (ordinal_known m d k Hv). }
  repeat split.
  - intros k. apply Hk.
  - apply ordinal_absent.
  - intros k. apply Hk.
  - apply ordinal_absent.
  - intros k. apply Hk.
  - apply ordinal_absent.
  - apply getitem_binding.
  - apply getitem_binding.
  - apply getitem_binding.
  - intros Ha. unfold x_in. cbn [sequence].
    now rewrite (getitem_absent _ _ Ha).
  - intros Ha He. unfold x_in. cbn [sequence].
    apply getitem_in in Ha as [va ->]. now rewrite (getitem_absent _ _ He).
  - intros Ha He Hp. unfold x_in. cbn [sequence].
    apply getitem_in in Ha as [va ->]. apply getitem_in in He as [ve ->].
    now rewrite (getitem_absent _ _ Hp).
Qed.

(** C2 fails at inference: the training script gave the unlisted employment
    status of [r2] the default code 1, the dashboard raises on it. *)
Lemma ordinal_default_missing_at_inference :
  ~ In (lit "Retired") (keys (emp_map Example.assets))
  /\ train_model.emp_numeric Example.r2 = 1%Z
  /\ getitem (emp_map Example.assets) (lit "Retired")
     = Raise (KeyError (lit "Retired"))
  /\ x_in Example.assets Example.pick_retired
     = Raise (KeyError (lit "Retired")).
Proof.
  split; [|repeat split; vm_compute; reflexivity].
  vm_compute. intuition discriminate.
Qed.

End Ordinals.

(* ================================================================= *)
(** * Cleaning *)

Section Cleaning.
Import LabelEncoder train_model.

(** C3, as the code has it. The training script drops the records that are
    empty in every field and keeps the others as read. The labels of the
    four categorical fields are coerced to strings and trimmed, so they are
    never missing, carry no surrounding whitespace and are fitted labels; a
    missing entry becomes the label [nan]. The five other textual fields are
    left as read, missing entries included. *)
Theorem training_cleaning_trims_categorical_labels (raw : DataFrame) (r : row) :
  In r (dropna_all raw) ->
  In r raw
  /\ (exists c, In c (cells r) /\ isna c = false)
  /\ (forall f, In f [gender; skill_alignment; skill_training; job_seeking_status] ->
        trimmed (normalise (f r))
        /\ In (normalise (f r)) (classes_ (encoder_of f (dropna_all raw)))
        /\ (f r = NaN -> normalise (f r) = lit "nan"))
  /\ gender (preprocessed r) = Str (normalise (gender r))
  /\ skill_alignment (preprocessed r) = Str (normalise (skill_alignment r))
  /\ skill_training (preprocessed r) = Str (normalise (skill_training r))
  /\ job_seeking_status (preprocessed r) = Str (normalise (job_seeking_status r))
  /\ (forall f, In f [age_group; education_level; employment_status;
                      issue_severity_perception; proposed_solution] ->
        f (preprocessed r) = f r).
Proof.
  intros Hr. pose proof Hr as Hf. apply filter_In in Hf as [Hraw Hne].
  split; [exact Hraw|]. split.
  - apply negb_true_iff in Hne. apply forallb_false in Hne as [c [Hc Hn]].
    now exists c.
  - split; [|repeat split].
    + intros f Hin. repeat split.
      * apply strip_trimmed.
      * apply strip_trimmed.
      * apply LabelEncoderFacts.unique_in. unfold label_column.
        apply in_map_iff. now exists r.
      * intros ->. reflexivity.
    + intros f Hin. simpl in Hin.
      destruct Hin as [<-|[<-|[<-|[<-|[<-|[]]]]]]; reflexivity.
Qed.

Lemma training_cleaning_trims_categorical_labels_witness :
  In Example.r3 Example.survey
  /\ (exists c, In c (cells Example.r3) /\ isna c = false)
  /\ (forall f, In f [gender; skill_alignment; skill_training; job_seeking_status] ->
        trimmed (normalise (f Example.r3))
        /\ In (normalise (f Example.r3))
              (classes_ (encoder_of f (dropna_all Example.survey)))
        /\ (f Example.r3 = NaN -> normalise (f Example.r3) = lit "nan"))
  /\ gender (preprocessed Example.r3) = Str (normalise (gender Example.r3))
  /\ skill_alignment (preprocessed Example.r3)
     = Str (normalise (skill_alignment Example.r3))
  /\ skill_training (preprocessed Example.r3)
     = Str (normalise (skill_training Example.r3))
  /\ job_seeking_status (preprocessed Example.r3)
     = Str (normalise (job_seeking_status Example.r3))
  /\ (forall f, In f [age_group; education_level; employment_status;
                      issue_severity_perception; proposed_solution] ->
        f (preprocessed Example.r3) = f Example.r3).
Proof.
  apply (@training_cleaning_trims_categorical_labels Example.survey Example.r3).
  simpl. auto.
Defined.

(** C3 fails on the training script: [r3] is processed, its missing severity
    perception is still missing afterwards, and its missing skill alignment
    has become the label [nan], not [Unknown]. *)
Lemma training_leaves_missing_text :
  In Example.r3 (dropna_all Example.survey)
  /\ issue_severity_perception (preprocessed Example.r3) = NaN
  /\ skill_alignment (preprocessed Example.r3) = Str (lit "nan")
  /\ skill_alignment (preprocessed Example.r3) <> Str app.Unknown.
Proof.
  split; [simpl; auto|]. split; [reflexivity|]. split; [reflexivity|].
  vm_compute. discriminate.
Qed.

(** The replacement by [Unknown] is the dashboard's: in a column that holds
    some text, its loader leaves no entry missing and trims every entry. *)
Lemma load_clean_data_fills (data : DataFrame) (f : row -> cell) (r : row) :
  app.is_object (List.map f data) = true ->
  exists s, app.clean_col data f r = Str s /\ trimmed s
            /\ (f r = NaN -> s = app.Unknown).
Proof.
  intros Hobj. unfold app.clean_col. rewrite Hobj.
  destruct (f r) as [|t]; simpl.
  - exists (strip app.Unknown). repeat split; try apply strip_trimmed.
  - exists (strip t). repeat split; try apply strip_trimmed. discriminate.
Qed.

End Cleaning.

(* ================================================================= *)
(** * Training and inference together *)

Section EndToEnd.
Import LabelEncoder FitFacts app AppFacts TrainFacts ForestFacts.
Import RandomForest.

Variable rf_fit : list (list Z) -> list Z -> result forest.

(** C5. The bundle records the seven feature names in the order age,
    education, employment, gender, skill alignment, skill training, job
    seeking. Every row of the training matrix holds, in that order, the
    three mapped codes of the record's ordinal labels and the four codes its
    categorical labels have under the fitted encoders; every row the
    dashboard assembles holds, in the same order, the codes of the three
    ordinal selections under the same maps and of the four categorical
    selections under the same encoders. So wherever a selection repeats the
    label of a training record, the two rows agree at that position. *)
Theorem feature_order_agrees (raw : DataFrame) (a : Assets) :
  train_model.main rf_fit (Some raw) = Ok a ->
  feature_names a
  = [lit "age_numeric"; lit "edu_numeric"; lit "emp_numeric"; lit "gender";
     lit "skill_alignment"; lit "skill_training"; lit "job_seeking_status"]
  /\ (forall s x,
        x_in a s = Ok x ->
        exists cg cs ct cj,
          x = [fillna 1 (series_map train_model.age_map (Str (age s)));
               fillna 2 (series_map train_model.edu_map (Str (edu s)));
               fillna 1 (series_map train_model.emp_map (Str (emp s)));
               Z.of_nat cg; Z.of_nat cs; Z.of_nat ct; Z.of_nat cj]
          /\ transform (train_model.encoder_of gender (dropna_all raw))
                       (gen s) = Ok cg
          /\ transform (train_model.encoder_of skill_alignment (dropna_all raw))
                       (skl s) = Ok cs
          /\ transform (train_model.encoder_of skill_training (dropna_all raw))
                       (trn s) = Ok ct
          /\ transform (train_model.encoder_of job_seeking_status
                          (dropna_all raw)) (sk s) = Ok cj)
  /\ exists X y,
       train_model.design (dropna_all raw) = Ok (encoders a, X, y)
       /\ List.length X = List.length (dropna_all raw)
       /\ (forall i r,
             nth_error (dropna_all raw) i = Some r ->
             exists cg cs ct cj,
               nth_error X i
               = Some [fillna 1 (series_map train_model.age_map (age_group r));
                       fillna 2 (series_map train_model.edu_map
                                   (education_level r));
                       fillna 1 (series_map train_model.emp_map
                                   (employment_status r));
                       Z.of_nat cg; Z.of_nat cs; Z.of_nat ct; Z.of_nat cj]
               /\ transform (train_model.encoder_of gender (dropna_all raw))
                            (train_model.normalise (gender r)) = Ok cg
               /\ transform (train_model.encoder_of skill_alignment
                               (dropna_all raw))
                            (train_model.normalise (skill_alignment r)) = Ok cs
               /\ transform (train_model.encoder_of skill_training
                               (dropna_all raw))
                            (train_model.normalise (skill_training r)) = Ok ct
               /\ transform (train_model.encoder_of job_seeking_status
                               (dropna_all raw))
                            (train_model.normalise (job_seeking_status r))
                  = Ok cj)
       /\ (forall i r s x xr,
             nth_error (dropna_all raw) i = Some r ->
             nth_error X i = Some xr ->
             x_in a s = Ok x ->
             (age_group r = Str (age s) -> nth 0 xr 0%Z = nth 0 x 0%Z)
             /\ (education_level r = Str (edu s) -> nth 1 xr 0%Z = nth 1 x 0%Z)
             /\ (employment_status r = Str (emp s) ->
                 nth 2 xr 0%Z = nth 2 x 0%Z)
             /\ (gen s = train_model.normalise (gender r) ->
                 nth 3 xr 0%Z = nth 3 x 0%Z)
             /\ (skl s = train_model.normalise (skill_alignment r) ->
                 nth 4 xr 0%Z = nth 4 x 0%Z)
             /\ (trn s = train_model.normalise (skill_training r) ->
                 nth 5 xr 0%Z = nth 5 x 0%Z)
             /\ (sk s = train_model.normalise (job_seeking_status r) ->
                 nth 6 xr 0%Z = nth 6 x 0%Z)).
Proof.
  intros Hmain. apply main_ok in Hmain as (m & _ & ->).
  set (df := dropna_all raw). set (a := mkAssets m _ _ _ _ _).
  assert (Hinf : forall s x,
            x_in a s = Ok x ->
            exists cg cs ct cj,
              x = [fillna 1 (series_map train_model.age_map (Str (age s)));
                   fillna 2 (series_map train_model.edu_map (Str (edu s)));
                   fillna 1 (series_map train_model.emp_map (Str (emp s)));
                   Z.of_nat cg; Z.of_nat cs; Z.of_nat ct; Z.of_nat cj]
              /\ transform (train_model.encoder_of gender df) (gen s) = Ok cg
              /\ transform (train_model.encoder_of skill_alignment df) (skl s)
                 = Ok cs
              /\ transform (train_model.encoder_of skill_training df) (trn s)
                 = Ok ct
              /\ transform (train_model.encoder_of job_seeking_status df) (sk s)
                 = Ok cj).
  { intros s x Hx. apply x_in_inv in Hx
      as (va & ve & vp & zg & zs & zt & zj & Ha & He & Hp & Hg & Hs & Ht & Hj & ->).
    cbn [age_map edu_map emp_map a] in Ha, He, Hp.
    rewrite (ordinal_known _ 1 _ Ha), (ordinal_known _ 2 _ He),
      (ordinal_known _ 1 _ Hp).
    apply encode_inv in Hg as (lg & cg & Lg & Tg & ->).
    apply encode_inv in Hs as (ls & cs & Ls & Ts & ->).
    apply encode_inv in Ht as (lt & ct & Lt & Tt & ->).
    apply encode_inv in Hj as (lj & cj & Lj & Tj & ->).
    apply Ok_inj in Lg, Ls, Lt, Lj. subst lg ls lt lj.
    exists cg, cs, ct, cj. auto. }
  assert (Htrain : forall i r,
            nth_error df i = Some r ->
            exists cg cs ct cj,
              nth_error (List.map (train_model.row_at (train_model.X_cols df))
                           (seq 0 (List.length df))) i
              = Some [fillna 1 (series_map train_model.age_map (age_group r));
                      fillna 2 (series_map train_model.edu_map
                                  (education_level r));
                      fillna 1 (series_map train_model.emp_map
                                  (employment_status r));
                      Z.of_nat cg; Z.of_nat cs; Z.of_nat ct; Z.of_nat cj]
              /\ transform (train_model.encoder_of gender df)
                           (train_model.normalise (gender r)) = Ok cg
              /\ transform (train_model.encoder_of skill_alignment df)
                           (train_model.normalise (skill_alignment r)) = Ok cs
              /\ transform (train_model.encoder_of skill_training df)
                           (train_model.normalise (skill_training r)) = Ok ct
              /\ transform (train_model.encoder_of job_seeking_status df)
                           (train_model.normalise (job_seeking_status r))
                 = Ok cj).
  { intros i r Hr.
    destruct (X_row _ i Hr) as (cg & cs & ct & cj & Hg & Hs & Ht & Hj & HX).
    exists cg, cs, ct, cj. auto. }
  split; [reflexivity|]. split; [exact Hinf|].
  eexists _, _. split; [apply design_ok|].
  split; [now rewrite length_map, length_seq|]. split; [exact Htrain|].
  intros i r s x xr Hr Hxr Hx.
  destruct (Htrain i r Hr) as (cg & cs & ct & cj & HX & Hg & Hs & Ht & Hj).
  fold df in Hxr. rewrite HX in Hxr. injection Hxr as <-.
  destruct (Hinf s x Hx) as (zg & zs & zt & zj & -> & Zg & Zs & Zt & Zj).
  cbn [nth].
  repeat split.
  - now intros ->.
  - now intros ->.
  - now intros ->.
  - intros E. rewrite E in Zg. congruence.
  - intros E. rewrite E in Zs. congruence.
  - intros E. rewrite E in Zt. congruence.
  - intros E. rewrite E in Zj. congruence.
Qed.

(** C4, as the code has it. A forest fitted by the training script predicts,
    for every input vector, a score between 1 and 5 (the targets being the
    severity values 1, 3 and 5); whenever the dashboard assembles its vector
    the prediction is made and lies in that range; and it is assembled for
    the selections that repeat a training record whose three ordinal labels
    are keys of the ordinal maps, the categorical selections being the
    record's labels as the training script normalised them. *)
Theorem prediction_within_range (raw : DataFrame) (a : Assets) :
  (forall X y m, rf_fit X y = Ok m -> fitted y m) ->
  train_model.main rf_fit (Some raw) = Ok a ->
  (forall x, (1 <= predict (model a) x)%Q /\ (predict (model a) x <= 5)%Q)
  /\ (forall s x, x_in a s = Ok x ->
        exists p, prediction a s = Ok p /\ (1 <= p)%Q /\ (p <= 5)%Q)
  /\ (forall r s, In r (dropna_all raw) -> matches r s ->
        In (age s) (keys (age_map a)) -> In (edu s) (keys (edu_map a)) ->
        In (emp s) (keys (emp_map a)) ->
        exists p, prediction a s = Ok p /\ (1 <= p)%Q /\ (p <= 5)%Q).
Proof.
  intros Hfit Hmain. pose proof Hmain as Hm.
  apply main_ok in Hm as (m & Hrf & ->). cbn [model age_map edu_map emp_map].
  clear Hmain.
  assert (Hrange : forall x, in_range (predict m x)).
  { intros x. apply fitted_in_range with (y := List.map train_model.target_score (dropna_all raw)).
    - apply targets_in_range.
    - eapply Hfit, Hrf. }
  set (a := mkAssets m _ _ _ _ _) in *.
  assert (Hpred : forall s x, x_in a s = Ok x ->
           exists p, prediction a s = Ok p /\ (1 <= p)%Q /\ (p <= 5)%Q).
  { intros s x Hx. exists (predict m x). unfold prediction. rewrite Hx.
    split; [reflexivity | apply Hrange]. }
  split; [exact Hrange|]. split; [exact Hpred|].
  intros r s Hr (Ma & Me & Mp & Mg & Ms & Mt & Mj) Ha He Hp.
  apply getitem_in in Ha as [va Ha]. apply getitem_in in He as [ve He].
  apply getitem_in in Hp as [vp Hp].
  assert (Hc : forall (f : row -> cell),
             In (train_model.normalise (f r))
                (classes_ (train_model.encoder_of f (dropna_all raw)))).
  { intros f. apply LabelEncoderFacts.unique_in. unfold train_model.label_column.
    apply in_map_iff. now exists r. }
  destruct (@encode_known a "gender" _ (gen s) eq_refl) as [cg [_ Hcg]];
    [rewrite Mg; apply Hc|].
  destruct (@encode_known a "skill_alignment" _ (skl s) eq_refl) as [cs [_ Hcs]];
    [rewrite Ms; apply Hc|].
  destruct (@encode_known a "skill_training" _ (trn s) eq_refl) as [ct [_ Hct]];
    [rewrite Mt; apply Hc|].
  destruct (@encode_known a "job_seeking_status" _ (sk s) eq_refl) as [cj [_ Hcj]];
    [rewrite Mj; apply Hc|].
  exact (Hpred s _ (x_in_ok a s Ha He Hp Hcg Hcs Hct Hcj)).
Qed.

End EndToEnd.

(* ================================================================= *)
(** * The pipeline on the example survey *)

Section Run.
Import LabelEncoder app RandomForest.

Lemma example_bundle :
  train_model.main Example.rf_stub (Some Example.survey) = Ok Example.assets.
Proof. vm_compute. reflexivity. Qed.

Lemma decode_encode_roundtrip_witness :
  exists code,
    transform (mk [lit "Female"; lit "Male"]) (lit "Male") = Ok code
    /\ decode (mk [lit "Female"; lit "Male"]) code = Some (lit "Male").
Proof.
  apply (@decode_encode_roundtrip (mk [lit "Female"; lit "Male"]) (lit "Male")).
  simpl. auto.
Defined.

Lemma unseen_label_raises_witness :
  transform (mk [lit "Female"; lit "Male"]) (lit "never-seen-label")
  = Raise (ValueError (lit "never-seen-label"))
  /\ encode Example.assets "gender" (lit "never-seen-label")
     = Raise (ValueError (lit "never-seen-label")).
Proof.
  apply (@unseen_label_raises Example.assets "gender"
           (mk [lit "Female"; lit "Male"]) (lit "never-seen-label")).
  - vm_compute. reflexivity.
  - vm_compute. intuition discriminate.
Defined.


(** On a survey read as latin-1: the dashboard row for a menu choice that
    repeats the education, employment and categorical labels of the third
    kept record, beside that record's training row. *)
Lemma feature_order_agrees_witness :
  (x_in Example.assets_read
     (mkSel Example.label_25_34 (lit "School level") (lit "Student")
            (lit "Female") (lit "nan") (lit "No") (lit "Yes"))
   = Ok [2; 1; 1; 0; 1; 0; 0]%Z
   /\ fst (fst (match train_model.design (dropna_all Example.survey_read) with
                | Ok d => d
                | Raise _ => ([], [], [])
                end)) = encoders Example.assets_read
   /\ nth_error (snd (fst (match train_model.design
                                  (dropna_all Example.survey_read) with
                          | Ok d => d
                          | Raise _ => ([], [], [])
                          end))) 1
      = Some [1; 1; 1; 0; 1; 0; 0]%Z)
  /\ feature_names Example.assets_read
     = [lit "age_numeric"; lit "edu_numeric"; lit "emp_numeric"; lit "gender";
        lit "skill_alignment"; lit "skill_training"; lit "job_seeking_status"].
Proof.
  split; [repeat split; vm_compute; reflexivity|].
  apply (@feature_order_agrees Example.rf_stub Example.survey_read
           Example.assets_read).
  vm_compute. reflexivity.
Defined.

Lemma prediction_within_range_witness :
  (forall x, (1 <= predict (model Example.assets) x)%Q
             /\ (predict (model Example.assets) x <= 5)%Q)
  /\ (forall s x, x_in Example.assets s = Ok x ->
        exists p, prediction Example.assets s = Ok p /\ (1 <= p)%Q /\ (p <= 5)%Q)
  /\ (forall r s, In r (dropna_all Example.survey) -> matches r s ->
        In (age s) (keys (age_map Example.assets)) ->
        In (edu s) (keys (edu_map Example.assets)) ->
        In (emp s) (keys (emp_map Example.assets)) ->
        exists p, prediction Example.assets s = Ok p /\ (1 <= p)%Q /\ (p <= 5)%Q).
Proof.
  apply (@prediction_within_range Example.rf_stub Example.survey Example.assets).
  - exact ForestFacts.rf_stub_fitted.
  - vm_compute. reflexivity.
Defined.

(** C4 fails for a training record with an unlisted ordinal label: [pick2]
    repeats the labels of the training record [r2], and the prediction
    raises on its age group. It fails too for a categorical label repeated
    as the file has it: the padded gender of [r3] is not a fitted label. *)
Lemma prediction_raises_on_training_labels :
  train_model.main Example.rf_stub (Some Example.survey) = Ok Example.assets
  /\ In Example.r2 (dropna_all Example.survey)
  /\ matches Example.r2 Example.pick2
  /\ prediction Example.assets Example.pick2
     = Raise (KeyError Example.label_35_44)
  /\ In Example.r3 (dropna_all Example.survey)
  /\ gender Example.r3 = Str (gen Example.pick3_raw)
  /\ prediction Example.assets Example.pick3_raw
     = Raise (ValueError (lit " Female ")).
Proof.
  split; [exact example_bundle|].
  split; [simpl; auto|].
  split; [vm_compute; repeat split; reflexivity|].
  split; [vm_compute; reflexivity|].
  split; [simpl; auto|].
  split; [reflexivity|].
  vm_compute. reflexivity.
Qed.

(** The fitted labels and codes of the gender column of the example. *)
Example gender_classes :
  classes_ (train_model.encoder_of gender (dropna_all Example.survey))
  = [lit "Female"; lit "Male"].
Proof. vm_compute. reflexivity. Qed.

Example x_in_pick1 :
  x_in Example.assets Example.pick1 = Ok [1; 2; 2; 1; 1; 0; 1]%Z.
Proof. vm_compute. reflexivity. Qed.

End Run.

(* ================================================================= *)
(** * Further properties of the training script *)

Section Normalising.
Import LabelEncoder LabelEncoderFacts FitFacts.

(** The label the training script fits for a cell is the cell's text (or
    [nan]) with whitespace removed at both ends and nothing else changed:
    the text is the label between two runs of whitespace, the label neither
    starts nor ends with whitespace, and normalising a label again leaves
    it as it is. *)
Theorem normalise_removes_surrounding_whitespace_only (c : cell) :
  (exists pre suf,
      astype_str c = pre ++ train_model.normalise c ++ suf
      /\ forallb isspace pre = true /\ forallb isspace suf = true)
  /\ (forall ch t, train_model.normalise c = ch :: t -> isspace ch = false)
  /\ (forall ch t, train_model.normalise c = t ++ [ch] -> isspace ch = false)
  /\ train_model.normalise (Str (train_model.normalise c))
     = train_model.normalise c.
Proof.
  unfold train_model.normalise. repeat split.
  - destruct (lstrip_decompose (astype_str c)) as [pre [Hs Hp]].
    destruct (rstrip_decompose (lstrip (astype_str c))) as [suf [Ht Hq]].
    exists pre, suf. unfold strip. rewrite <- Ht. auto.
  - intros ch t. apply strip_head.
  - intros ch t. apply strip_last.
  - simpl. apply strip_idem.
Qed.

Lemma increasing_ext (l1 l2 : list str) :
  increasing l1 -> increasing l2 ->
  (forall v, In v l1 <-> In v l2) -> l1 = l2.
Proof.
  intros H1. revert l2. induction H1 as [|a1 t1 Hs1 IH Ha1]; intros l2 H2 Hext.
  - destruct l2 as [|a2 t2]; [reflexivity|].
    exfalso. apply (Hext a2). now left.
  - destruct H2 as [|a2 t2 Hs2 Ha2].
    + exfalso. apply (Hext a1). now left.
    + rewrite Forall_forall in Ha1, Ha2.
      assert (Heq : a1 = a2).
      { destruct (proj1 (Hext a1) (or_introl eq_refl)) as [E|E1]; [now symmetry|].
        destruct (proj2 (Hext a2) (or_introl eq_refl)) as [E|E2]; [exact E|].
        exfalso. exact (str_lt_irrefl (str_lt_trans (Ha1 _ E2) (Ha2 _ E1))). }
      subst a2. f_equal. apply IH; [exact Hs2|].
      intros v. split; intros Hv.
      * destruct (proj1 (Hext v) (or_intror Hv)) as [E|E]; [|exact E].
        subst v. exfalso. exact (str_lt_irrefl (Ha1 _ Hv)).
      * destruct (proj2 (Hext v) (or_intror Hv)) as [E|E]; [|exact E].
        subst v. exfalso. exact (str_lt_irrefl (Ha2 _ Hv)).
Qed.

(** The fitted encoder depends only on which values occur in the column,
    not on their order or on how often they repeat: two columns with the
    same values give the same [classes_] and the same codes. *)
Theorem fit_depends_on_value_set_only (y1 y2 : list str) :
  (forall v, In v y1 <-> In v y2) ->
  fit y1 = fit y2 /\ forall v, transform (fit y1) v = transform (fit y2) v.
Proof.
  intros Hext.
  assert (H : fit y1 = fit y2).
  { unfold fit. f_equal. apply increasing_ext; try apply unique_increasing.
    intros v. rewrite !unique_in. apply Hext. }
  split; [exact H|]. intros v. now rewrite H.
Qed.

Lemma fit_depends_on_value_set_only_witness :
  fit [lit "Male"; lit "Female"; lit "Male"] = fit [lit "Female"; lit "Male"]
  /\ forall v, transform (fit [lit "Male"; lit "Female"; lit "Male"]) v
               = transform (fit [lit "Female"; lit "Male"]) v.
Proof.
  apply (@fit_depends_on_value_set_only
           [lit "Male"; lit "Female"; lit "Male"] [lit "Female"; lit "Male"]).
  intros v. simpl. tauto.
Defined.

(** Encoding a column loses nothing: [fit_transform] returns one code per
    value, each below the number of classes, and [classes_] decodes every
    code back to the value it stands for; under any encoder two values with
    the same code are the same value. *)
Theorem fit_transform_is_lossless (y : list str) :
  (exists cs,
      fit_transform y = Ok (fit y, cs)
      /\ List.map (decode (fit y)) cs = List.map Some y
      /\ Forall (fun c => (c < List.length (classes_ (fit y)))%nat) cs)
  /\ (forall le a b i, transform le a = Ok i -> transform le b = Ok i -> a = b).
Proof.
  split.
  - exists (codes (fit y) y). split; [apply fit_transform_ok|].
    assert (Hk : forall v, In v y ->
               exists i, index_of v (classes_ (fit y)) = Some i).
    { intros v Hv. apply index_of_in. simpl. now apply unique_in. }
    split.
    + unfold codes. rewrite map_map. apply map_ext_in. intros v Hv.
      destruct (Hk v Hv) as [i Hi]. rewrite Hi. unfold decode.
      now apply index_of_some.
    + unfold codes. apply Forall_map, Forall_forall. intros v Hv.
      destruct (Hk v Hv) as [i Hi]. rewrite Hi.
      apply nth_error_Some. rewrite (index_of_some _ _ Hi). discriminate.
  - intros le a b i Ha Hb. unfold transform in Ha, Hb.
    destruct (index_of a (classes_ le)) eqn:Ia; [|discriminate].
    destruct (index_of b (classes_ le)) eqn:Ib; [|discriminate].
    apply Ok_inj in Ha, Hb. subst.
    apply index_of_some in Ia, Ib. congruence.
Qed.

End Normalising.

Section Dropping.

Lemma dropna_all_in (df : DataFrame) (r : row) :
  In r (dropna_all df) <-> In r df /\ exists c, In c (cells r) /\ isna c = false.
Proof.
  unfold dropna_all. rewrite filter_In. split; intros [Hin H]; split; auto.
  - apply negb_true_iff, forallb_false in H. exact H.
  - destruct H as [c [Hc Hn]]. apply negb_true_iff.
    destruct (forallb isna (cells r)) eqn:E; [|reflexivity].
    rewrite forallb_forall in E. rewrite (E c Hc) in Hn. discriminate.
Qed.

Lemma filter_id {A : Type} (f : A -> bool) (l : list A) :
  (forall x, In x l -> f x = true) -> filter f l = l.
Proof.
  induction l as [|a l IH]; simpl; intros H; [reflexivity|].
  rewrite (H a) by auto. f_equal. apply IH. auto.
Qed.

End Dropping.

Section Matrix.
Import LabelEncoder LabelEncoderFacts FitFacts TrainFacts.

Lemma mapped_value (d : dict Z) (dflt : Z) (c : cell) :
  fillna dflt (series_map d c) = dflt
  \/ In (fillna dflt (series_map d c)) (List.map snd d).
Proof.
  destruct c as [|k]; simpl; [now left|].
  destruct (dict_get d k) as [v|] eqn:E; simpl; [right | now left].
  apply dict_get_binding in E. apply in_map_iff. now exists (k, v).
Qed.

Lemma transform_bound (le : t) (v : str) (c : nat) :
  transform le v = Ok c -> (c < List.length (classes_ le))%nat.
Proof.
  unfold transform. destruct (index_of v (classes_ le)) eqn:E; [|discriminate].
  intros H. apply Ok_inj in H. subst. apply nth_error_Some.
  rewrite (index_of_some _ _ E). discriminate.
Qed.

Lemma X_nth (df : DataFrame) (x : list Z) :
  In x (List.map (train_model.row_at (train_model.X_cols df))
          (seq 0 (List.length df))) ->
  exists i r, nth_error df i = Some r
              /\ nth_error (List.map (train_model.row_at (train_model.X_cols df))
                              (seq 0 (List.length df))) i = Some x.
Proof.
  intros Hx. apply in_map_iff in Hx as [i [<- Hi]]. apply in_seq in Hi.
  destruct (nth_error df i) as [r|] eqn:E.
  - exists i, r. split; [exact E|].
    rewrite nth_error_map, nth_error_seq.
    replace (i <? List.length df)%nat with true
      by (symmetry; apply Nat.ltb_lt; lia).
    reflexivity.
  - apply nth_error_None in E. lia.
Qed.

(** The preprocessing never raises. It fits the four encoders in loop order
    and builds one row of seven features per kept record: an age code 1 or
    2, education and employment codes from 1 to 3, and four label codes
    below the number of classes of their encoders; the targets are 1, 3
    or 5, one per record. *)
Theorem training_matrix_is_well_formed (raw : DataFrame) :
  exists encs X y,
    train_model.design (dropna_all raw) = Ok (encs, X, y)
    /\ keys encs = train_model.categorical_cols
    /\ List.length X = List.length (dropna_all raw)
    /\ List.length y = List.length (dropna_all raw)
    /\ Forall (fun z => z = 1 \/ z = 3 \/ z = 5)%Z y
    /\ Forall (fun x =>
         exists a e p g s t j,
           x = [a; e; p; Z.of_nat g; Z.of_nat s; Z.of_nat t; Z.of_nat j]
           /\ (a = 1 \/ a = 2)%Z /\ (1 <= e <= 3)%Z /\ (1 <= p <= 3)%Z
           /\ (g < List.length
                     (classes_ (train_model.encoder_of gender (dropna_all raw))))%nat
           /\ (s < List.length
                     (classes_ (train_model.encoder_of skill_alignment
                                  (dropna_all raw))))%nat
           /\ (t < List.length
                     (classes_ (train_model.encoder_of skill_training
                                  (dropna_all raw))))%nat
           /\ (j < List.length
                     (classes_ (train_model.encoder_of job_seeking_status
                                  (dropna_all raw))))%nat) X.
Proof.
  eexists _, _, _. split; [apply design_ok|].
  split; [reflexivity|]. split; [now rewrite length_map, length_seq|].
  split; [now rewrite length_map|]. split.
  - apply Forall_map, Forall_forall. intros r _.
    pose proof (target_score_values r). tauto.
  - apply Forall_forall. intros x Hx.
    apply X_nth in Hx as (i & r & Hr & Hx).
    destruct (X_row _ i Hr) as (cg & cs & ct & cj & Hg & Hs & Ht & Hj & HX).
    rewrite Hx in HX. apply (f_equal (fun o => match o with Some v => v | None => [] end)) in HX.
    exists (train_model.age_numeric r), (train_model.edu_numeric r),
      (train_model.emp_numeric r), cg, cs, ct, cj.
    split; [exact HX|].
    split; [destruct (mapped_value train_model.age_map 1 (age_group r)) as [E|E];
            [left; exact E | simpl in E; unfold train_model.age_numeric; lia]|].
    split; [destruct (mapped_value train_model.edu_map 2 (education_level r)) as [E|E];
            [unfold train_model.edu_numeric; lia
            | simpl in E; unfold train_model.edu_numeric; lia]|].
    split; [destruct (mapped_value train_model.emp_map 1 (employment_status r)) as [E|E];
            [unfold train_model.emp_numeric; lia
            | simpl in E; unfold train_model.emp_numeric; lia]|].
    repeat split; eapply transform_bound; eassumption.
Qed.

Lemma age_key_not_latin1 (s : str) :
  latin1 s -> dict_get train_model.age_map s = None.
Proof.
  intros Hs. apply dict_get_none. intros Hin.
  assert (Hd : In 8211%N s).
  { simpl in Hin. destruct Hin as [<-|[<-|[]]]; simpl; tauto. }
  unfold latin1 in Hs. rewrite Forall_forall in Hs. specialize (Hs _ Hd). lia.
Qed.

(** The frame is read with [encoding='latin1'], so no text in it holds a
    code point above 255, while both keys of [age_map] hold the dash U+2013:
    no age group of such a frame is a key, every record gets the default
    age code 1, and the first column of the training matrix is constant. *)
Theorem latin1_frames_have_constant_age_feature (raw : DataFrame) :
  (forall r s, In r raw -> age_group r = Str s -> latin1 s) ->
  (forall r, In r raw -> train_model.age_numeric r = 1%Z)
  /\ exists encs X y,
       train_model.design (dropna_all raw) = Ok (encs, X, y)
       /\ Forall (fun x => nth 0 x 0%Z = 1%Z) X.
Proof.
  intros Hl.
  assert (Ha : forall r, In r raw -> train_model.age_numeric r = 1%Z).
  { intros r Hr. unfold train_model.age_numeric.
    destruct (age_group r) as [|s] eqn:E; [reflexivity|]. unfold series_map.
    now rewrite (age_key_not_latin1 (Hl r s Hr E)). }
  split; [exact Ha|].
  eexists _, _, _. split; [apply design_ok|].
  apply Forall_forall. intros x Hx.
  apply X_nth in Hx as (i & r & Hr & Hx).
  destruct (X_row _ i Hr) as (cg & cs & ct & cj & _ & _ & _ & _ & HX).
  rewrite Hx in HX. apply (f_equal (fun o => match o with Some v => v | None => [] end)) in HX.
  subst x. simpl. apply Ha. apply nth_error_In in Hr.
  apply filter_In in Hr. tauto.
Qed.

Lemma latin1_frames_have_constant_age_feature_witness :
  (forall r, In r Example.survey_latin1 -> train_model.age_numeric r = 1%Z)
  /\ exists encs X y,
       train_model.design (dropna_all Example.survey_latin1) = Ok (encs, X, y)
       /\ Forall (fun x => nth 0 x 0%Z = 1%Z) X.
Proof.
  apply (@latin1_frames_have_constant_age_feature Example.survey_latin1).
  intros r s [<-|[<-|[]]]; simpl; [|discriminate].
  intros [= <-]. unfold latin1. repeat constructor.
Defined.

End Matrix.

Section Bundle.
Import LabelEncoder LabelEncoderFacts FitFacts TrainFacts app AppFacts.
Import RandomForest ForestFacts.

Variable rf_fit : list (list Z) -> list Z -> result forest.
Variable pickle_dump : Assets -> list N.
Variable pickle_load : blob -> result Assets.


Lemma trained_menus (raw : DataFrame) (a : Assets) :
  train_model.main rf_fit (Some raw) = Ok a ->
  menus a
  = Ok (mkMenus (keys train_model.age_map) (keys train_model.edu_map)
          (keys train_model.emp_map)
          (classes_ (train_model.encoder_of gender (dropna_all raw)))
          (classes_ (train_model.encoder_of skill_alignment (dropna_all raw)))
          (classes_ (train_model.encoder_of skill_training (dropna_all raw)))
          (classes_ (train_model.encoder_of job_seeking_status (dropna_all raw)))).
Proof.
  intros H. apply main_ok in H as (m & _ & ->). reflexivity.
Qed.

Lemma trained_label (f : row -> cell) (df : DataFrame) (l : str) :
  In l (classes_ (train_model.encoder_of f df)) <->
  exists r, In r df /\ l = train_model.normalise (f r).
Proof.
  unfold train_model.encoder_of, train_model.label_column. simpl.
  rewrite unique_in, in_map_iff.
  split; intros [r [H1 H2]]; exists r; split; auto.
Qed.

(** The menus of a trained bundle list what training saw: the ordinal menus
    are the keys of the three static maps, and a label is in a categorical
    menu exactly when it is the normalised label of some kept training
    record; each categorical menu is in increasing order without repeats. *)
Theorem menus_list_the_training_labels (raw : DataFrame) (a : Assets) :
  train_model.main rf_fit (Some raw) = Ok a ->
  exists m,
    menus a = Ok m
    /\ age_options m = keys train_model.age_map
    /\ edu_options m = keys train_model.edu_map
    /\ emp_options m = keys train_model.emp_map
    /\ (forall l, In l (gen_options m) <->
          exists r, In r (dropna_all raw) /\ l = train_model.normalise (gender r))
    /\ (forall l, In l (skl_options m) <->
          exists r, In r (dropna_all raw)
                    /\ l = train_model.normalise (skill_alignment r))
    /\ (forall l, In l (trn_options m) <->
          exists r, In r (dropna_all raw)
                    /\ l = train_model.normalise (skill_training r))
    /\ (forall l, In l (sk_options m) <->
          exists r, In r (dropna_all raw)
                    /\ l = train_model.normalise (job_seeking_status r))
    /\ increasing (gen_options m) /\ increasing (skl_options m)
    /\ increasing (trn_options m) /\ increasing (sk_options m).
Proof.
  intros H. eexists. split; [exact (trained_menus _ H)|].
  cbn [age_options edu_options emp_options gen_options skl_options trn_options
       sk_options].
  repeat split; try apply trained_label; try apply (proj2 (trained_label _ _ _));
    apply unique_increasing.
Qed.

End Bundle.

Lemma menus_list_the_training_labels_witness :
  exists m,
    app.menus Example.assets = Ok m
    /\ app.age_options m = keys train_model.age_map
    /\ app.edu_options m = keys train_model.edu_map
    /\ app.emp_options m = keys train_model.emp_map
    /\ (forall l, In l (app.gen_options m) <->
          exists r, In r (dropna_all Example.survey)
                    /\ l = train_model.normalise (gender r))
    /\ (forall l, In l (app.skl_options m) <->
          exists r, In r (dropna_all Example.survey)
                    /\ l = train_model.normalise (skill_alignment r))
    /\ (forall l, In l (app.trn_options m) <->
          exists r, In r (dropna_all Example.survey)
                    /\ l = train_model.normalise (skill_training r))
    /\ (forall l, In l (app.sk_options m) <->
          exists r, In r (dropna_all Example.survey)
                    /\ l = train_model.normalise (job_seeking_status r))
    /\ increasing (app.gen_options m) /\ increasing (app.skl_options m)
    /\ increasing (app.trn_options m) /\ increasing (app.sk_options m).
Proof.
  apply (@menus_list_the_training_labels Example.rf_stub Example.survey
           Example.assets).
  vm_compute. reflexivity.
Defined.

Section Loading.
Import LabelEncoder FitFacts TrainFacts app AppFacts.
Import RandomForest ForestFacts.

Variable rf_fit : list (list Z) -> list Z -> result forest.
Variable pickle_dump : Assets -> list N.
Variable pickle_load : blob -> result Assets.

Lemma selectable_x_in (a : Assets) (m : Menus) (s : Selections) :
  menus a = Ok m -> selectable m s -> exists x, x_in a s = Ok x.
Proof.
  intros Hm (Ha & He & Hp & Hgen & Hskl & Htrn & Hsk).
  apply menus_inv in Hm as (lg & ls & lt & lj & Hg & Hs & Ht & Hj & ->).
  cbn [age_options edu_options emp_options gen_options skl_options trn_options
       sk_options] in *.
  apply getitem_in in Ha as [va Ha]. apply getitem_in in He as [ve He].
  apply getitem_in in Hp as [vp Hp].
  destruct (encode_known a "gender" _ Hg Hgen) as [cg [_ Hcg]].
  destruct (encode_known a "skill_alignment" _ Hs Hskl) as [cs [_ Hcs]].
  destruct (encode_known a "skill_training" _ Ht Htrn) as [ct [_ Hct]].
  destruct (encode_known a "job_seeking_status" _ Hj Hsk) as [cj [_ Hcj]].
  eexists. exact (x_in_ok a s Ha He Hp Hcg Hcs Hct Hcj).
Qed.

Lemma trained_in_range (raw : DataFrame) (a : Assets) :
  (forall X y f, rf_fit X y = Ok f -> fitted y f) ->
  train_model.main rf_fit (Some raw) = Ok a ->
  forall x, in_range (predict (model a) x).
Proof.
  intros Hfit Hmain x. apply main_ok in Hmain as (m & Hrf & ->).
  cbn [model]. eapply fitted_in_range; [apply targets_in_range|].
  eapply Hfit, Hrf.
Qed.

(** Training and the dashboard fit together: once the script has written
    the bundle, a dashboard that can unpickle those bytes loads that bundle,
    whatever the disk held before, and for every choice from its menus the
    prediction tab shows the header and a score between 1 and 5. *)
Theorem trained_bundle_loads_and_predicts
    (raw : DataFrame) (a : Assets) (disk : option (list N))
    (m : Menus) (s : Selections) :
  (forall X y f, rf_fit X y = Ok f -> fitted y f) ->
  train_model.main rf_fit (Some raw) = Ok a ->
  pickle_load (pickle_dump a) = Ok a ->
  menus a = Ok m ->
  selectable m s ->
  load_assets pickle_load
    (train_model.script rf_fit pickle_dump (Some raw) disk) = Some a
  /\ exists p,
       tab3 (load_assets pickle_load
               (train_model.script rf_fit pickle_dump (Some raw) disk)) s true
       = Ok [st_header "Crisis Perception AI";
             st_metric "Predicted Severity Score" p]
       /\ (1 <= p)%Q /\ (p <= 5)%Q.
Proof.
  intros Hfit Hmain Hpk Hm Hs.
  assert (Hl : load_assets pickle_load
                 (train_model.script rf_fit pickle_dump (Some raw) disk) = Some a).
  { unfold train_model.script. rewrite Hmain. unfold load_assets, open_rb.
    cbn [bind]. now rewrite Hpk. }
  split; [exact Hl|]. rewrite Hl.
  destruct (@selectable_x_in _ _ _ Hm Hs) as [x Hx].
  exists (predict (model a) x). split.
  - unfold tab3. rewrite Hm. cbn [bind]. unfold prediction. rewrite Hx.
    reflexivity.
  - apply (@trained_in_range _ _ Hfit Hmain).
Qed.

End Loading.

Lemma trained_bundle_loads_and_predicts_witness :
  app.load_assets Example.pickle_stub
    (train_model.script Example.rf_stub Example.dump_stub
       (Some Example.survey) None) = Some Example.assets
  /\ exists p,
       app.tab3 (app.load_assets Example.pickle_stub
                   (train_model.script Example.rf_stub Example.dump_stub
                      (Some Example.survey) None)) Example.pick3 true
       = Ok [app.st_header "Crisis Perception AI";
             app.st_metric "Predicted Severity Score" p]
       /\ (1 <= p)%Q /\ (p <= 5)%Q.
Proof.
  apply (@trained_bundle_loads_and_predicts Example.rf_stub Example.dump_stub
           Example.pickle_stub Example.survey Example.assets None
           (app.mkMenus (keys train_model.age_map) (keys train_model.edu_map)
              (keys train_model.emp_map)
              [lit "Female"; lit "Male"] [lit "No"; lit "Yes"; lit "nan"]
              [lit "No"; lit "Yes"] [lit "No"; lit "Yes"])
           Example.pick3).
  - exact ForestFacts.rf_stub_fitted.
  - vm_compute. reflexivity.
  - reflexivity.
  - vm_compute. reflexivity.
  - vm_compute. intuition.
Defined.

(* ================================================================= *)
(** * Further properties of the dashboard *)

Module CleanFacts.
Import app.

Lemma load_clean_data_rows (data : DataFrame) :
  load_clean_data data = List.map (clean_row data) data.
Proof. reflexivity. Qed.

Lemma clean_row_field (data : DataFrame) (f : row -> cell) (r : row) :
  In f header -> f (clean_row data r) = clean_col data f r.
Proof.
  intros H. simpl in H.
  destruct H as [<-|[<-|[<-|[<-|[<-|[<-|[<-|[<-|[<-|[]]]]]]]]]]; reflexivity.
Qed.

Lemma cleaned_column (data : DataFrame) (f : row -> cell) :
  In f header ->
  List.map f (load_clean_data data) = List.map (clean_col data f) data.
Proof.
  intros H. rewrite load_clean_data_rows, map_map. apply map_ext.
  intros r. now apply clean_row_field.
Qed.

Lemma is_object_false (col : list cell) :
  is_object col = false <-> forall c, In c col -> c = NaN.
Proof.
  unfold is_object. split.
  - intros H c Hc. destruct c as [|s]; [reflexivity|].
    assert (E : existsb (fun c => negb (isna c)) col = true); [|congruence].
    apply existsb_exists. now exists (Str s).
  - intros H. destruct (existsb _ col) eqn:E; [|reflexivity].
    apply existsb_exists in E as [c [Hc Hn]]. rewrite (H c Hc) in Hn.
    discriminate.
Qed.

Lemma clean_col_text (data : DataFrame) (f : row -> cell) (r : row) :
  is_object (List.map f data) = true ->
  exists s, clean_col data f r = Str s /\ trimmed s
            /\ (f r = NaN -> s = Unknown)
            /\ (forall t, f r = Str t -> s = strip t).
Proof.
  intros Hobj. unfold clean_col. rewrite Hobj.
  destruct (f r) as [|t]; simpl.
  - exists (strip Unknown). repeat split; try apply strip_trimmed; discriminate.
  - exists (strip t). repeat split; try apply strip_trimmed; try discriminate.
    now intros t' [= ->].
Qed.

Lemma clean_col_missing (data : DataFrame) (f : row -> cell) (r : row) :
  is_object (List.map f data) = false -> In r data ->
  clean_col data f r = NaN.
Proof.
  intros Hobj Hr. unfold clean_col. rewrite Hobj.
  apply (proj1 (is_object_false _) Hobj). now apply in_map.
Qed.

Lemma cleaned_is_object (data : DataFrame) (f : row -> cell) :
  In f header ->
  is_object (List.map f (load_clean_data data)) = is_object (List.map f data).
Proof.
  intros Hf. rewrite (cleaned_column data Hf).
  destruct (is_object (List.map f data)) eqn:E.
  - pose proof E as E'. unfold is_object in E'.
    apply existsb_exists in E' as [c [Hc _]].
    apply in_map_iff in Hc as [r [_ Hr]]. apply existsb_exists.
    destruct (clean_col_text data f r) as [s [Hs _]]; [exact E|].
    exists (Str s). split; [|reflexivity]. rewrite <- Hs. now apply in_map.
  - apply is_object_false. intros c Hc. apply in_map_iff in Hc as [r [<- Hr]].
    now apply clean_col_missing.
Qed.

Lemma clean_row_fixed (data : DataFrame) (f : row -> cell) (r : row) :
  In f header -> In r data ->
  clean_col (load_clean_data data) f (clean_row data r) = f (clean_row data r).
Proof.
  intros Hf Hr. unfold clean_col at 1. rewrite (cleaned_is_object data Hf).
  destruct (is_object (List.map f data)) eqn:E; [|reflexivity].
  rewrite (clean_row_field data r Hf).
  destruct (clean_col_text data f r E) as [s [-> [[Hl Hs] _]]]. simpl.
  unfold strip. now rewrite Hl, Hs.
Qed.

(** What [load_clean_data] does to the frame it read: it keeps every
    record; in a column that holds some text every entry becomes text
    without surrounding whitespace, a missing entry becoming [Unknown];
    a column that is entirely missing is left entirely missing; and
    cleaning a cleaned frame changes nothing. *)
Theorem load_clean_data_fills_text_columns_only (data : DataFrame) :
  List.length (load_clean_data data) = List.length data
  /\ (forall f i r, In f header -> is_object (List.map f data) = true ->
        nth_error data i = Some r ->
        exists r' s, nth_error (load_clean_data data) i = Some r'
                     /\ f r' = Str s /\ trimmed s
                     /\ (f r = NaN -> s = Unknown)
                     /\ (forall t, f r = Str t -> s = strip t))
  /\ (forall f, In f header -> is_object (List.map f data) = false ->
        List.map f (load_clean_data data) = List.map f data
        /\ Forall (fun c => c = NaN) (List.map f data))
  /\ load_clean_data (load_clean_data data) = load_clean_data data.
Proof.
  split; [apply length_map|]. split; [|split].
  - intros f i r Hf Hobj Hr.
    destruct (clean_col_text data f r Hobj) as [s [Hs Hrest]].
    exists (clean_row data r), s. split.
    + rewrite load_clean_data_rows, nth_error_map, Hr. reflexivity.
    + rewrite (clean_row_field data r Hf). split; [exact Hs | exact Hrest].
  - intros f Hf Hobj. split.
    + rewrite (cleaned_column data Hf). apply map_ext_in. intros r Hr.
      unfold clean_col. now rewrite Hobj.
    + apply Forall_forall. now apply is_object_false.
  - rewrite (load_clean_data_rows (load_clean_data data)).
    rewrite <- (map_id (load_clean_data data)) at 3.
    apply map_ext_in. intros r' Hr'.
    rewrite load_clean_data_rows in Hr'. apply in_map_iff in Hr' as [r [<- Hr]].
    unfold clean_row at 1.
    rewrite !clean_row_fixed by (simpl; tauto).
    now destruct (clean_row data r).
Qed.

End CleanFacts.

Module PageFacts.
Import app CleanFacts.

Lemma filter_map_length {A B : Type} (f : B -> bool) (g : A -> B) (l : list A) :
  List.length (filter f (List.map g l))
  = List.length (filter (fun x => f (g x)) l).
Proof.
  induction l as [|a l IH]; simpl; [reflexivity|].
  destruct (f (g a)); simpl; now rewrite IH.
Qed.

Lemma filter_nil {A : Type} (f : A -> bool) (l : list A) :
  (forall x, In x l -> f x = false) -> filter f l = [].
Proof.
  induction l as [|a l IH]; simpl; intros H; [reflexivity|].
  rewrite (H a) by auto. apply IH. auto.
Qed.

Lemma differs_spec (s : str) (c : cell) : differs s c = true <-> c <> Str s.
Proof.
  destruct c as [|t]; simpl; [split; [discriminate | reflexivity]|].
  rewrite negb_true_iff, str_eqb_neq. split; congruence.
Qed.

Lemma filter_map_swap {A B : Type} (f : B -> bool) (g : A -> B) (l : list A) :
  filter f (List.map g l) = List.map g (filter (fun x => f (g x)) l).
Proof.
  induction l as [|a l IH]; simpl; [reflexivity|].
  destruct (f (g a)); simpl; now rewrite IH.
Qed.

(** The treemap never gets a record whose solution reads [Unknown]. When
    the solution column holds some text, it gets exactly the records whose
    solution was present in the file and does not trim to [Unknown], in file
    order and as the loader cleaned them; when the column is entirely
    missing nothing is filled in and every record is handed over. *)
Theorem tree_df_leaves_out_unknown_solutions (data : DataFrame) :
  exists rows,
    tree_df (Table (load_clean_data data)) = Ok rows
    /\ Forall (fun r => proposed_solution r <> Str Unknown) rows
    /\ (is_object (List.map proposed_solution data) = true ->
        rows
        = List.map (clean_row data)
            (filter (fun r => match proposed_solution r with
                              | NaN => false
                              | Str s => negb (str_eqb (strip s) Unknown)
                              end) data)
        /\ Forall (fun r => exists s, proposed_solution r = Str s /\ trimmed s)
                  rows)
    /\ (is_object (List.map proposed_solution data) = false ->
        rows = load_clean_data data
        /\ Forall (fun r => proposed_solution r = NaN) rows).
Proof.
  eexists. split; [reflexivity|]. split; [|split].
  - apply Forall_forall. intros r Hr. apply filter_In in Hr as [_ Hd].
    now apply differs_spec.
  - intros Hobj. split.
    + rewrite load_clean_data_rows, filter_map_swap.
      f_equal. apply filter_ext. intros r.
      change (proposed_solution (clean_row data r))
        with (clean_col data proposed_solution r).
      unfold clean_col. rewrite Hobj.
      destruct (proposed_solution r) as [|t]; reflexivity.
    + apply Forall_forall. intros r' Hr'. apply filter_In in Hr' as [Hr' _].
      rewrite load_clean_data_rows in Hr'. apply in_map_iff in Hr' as [r [<- _]].
      destruct (clean_col_text data proposed_solution r Hobj) as [s [Hs [Ht _]]].
      exists s. split; [exact Hs | exact Ht].
  - intros Hobj.
    assert (Hall : forall r', In r' (load_clean_data data) ->
                     proposed_solution r' = NaN).
    { intros r' Hr'. rewrite load_clean_data_rows in Hr'.
      apply in_map_iff in Hr' as [r [<- Hr]].
      now apply (clean_col_missing data proposed_solution). }
    split.
    + apply filter_id. intros r' Hr'. now rewrite (Hall r' Hr').
    + apply Forall_forall. intros r' Hr'. apply filter_In in Hr' as [Hr' _].
      now apply Hall.
Qed.

Lemma replace_empty_text (s : str) :
  trimmed s ->
  exists t, replace_empty (Str s) = Str t /\ t <> [] /\ trimmed t.
Proof.
  intros Hs. destruct s as [|c s].
  - exists Unknown. split; [reflexivity|]. split; [discriminate|].
    split; reflexivity.
  - exists (c :: s). split; [reflexivity|]. split; [discriminate | exact Hs].
Qed.

Lemma shown_text (data : DataFrame) (f : row -> cell) (r : row) :
  is_object (List.map f data) = true ->
  replace_empty (clean_col data f r) = Str (shown (f r)).
Proof.
  intros Hobj. unfold clean_col. rewrite Hobj.
  destruct (f r) as [|t]; [reflexivity|]. simpl.
  destruct (strip t); reflexivity.
Qed.

Lemma shown_not_blank (c : cell) : shown c <> [] /\ trimmed (shown c).
Proof.
  destruct c as [|t]; simpl.
  - split; [discriminate | split; reflexivity].
  - destruct (strip t) eqn:E.
    + split; [discriminate | split; reflexivity].
    + split; [discriminate|]. rewrite <- E. apply strip_trimmed.
Qed.

(** When the gender and the employment column both hold some text, the
    sunburst gets one pair per record of the file, in file order: the two
    trimmed texts, with [Unknown] in place of a missing or blank entry; so
    every entry it gets is non-empty text without surrounding whitespace.
    When either column is entirely missing it gets no record at all. *)
Theorem sun_df_has_no_blank_entry (data : DataFrame) :
  exists rows,
    sun_df (Table (load_clean_data data)) = Ok rows
    /\ (is_object (List.map gender data) = true ->
        is_object (List.map employment_status data) = true ->
        rows = List.map (fun r => (Str (shown (gender r)),
                                   Str (shown (employment_status r)))) data)
    /\ (is_object (List.map gender data) = false
        \/ is_object (List.map employment_status data) = false ->
        rows = [])
    /\ Forall (fun p => exists g e,
                 p = (Str g, Str e) /\ g <> [] /\ e <> []
                 /\ trimmed g /\ trimmed e) rows.
Proof.
  assert (Hboth : is_object (List.map gender data) = true ->
                  is_object (List.map employment_status data) = true ->
                  filter (fun p => negb (isna (fst p)) && negb (isna (snd p)))
                    (List.map (fun r => (replace_empty (gender r),
                                         replace_empty (employment_status r)))
                       (load_clean_data data))
                  = List.map (fun r => (Str (shown (gender r)),
                                        Str (shown (employment_status r)))) data).
  { intros Hg He. rewrite load_clean_data_rows, map_map.
    rewrite (map_ext_in _ (fun r => (Str (shown (gender r)),
                                     Str (shown (employment_status r))))).
    - apply filter_id. intros p Hp. apply in_map_iff in Hp as [r [<- _]].
      reflexivity.
    - intros r _.
      change (gender (clean_row data r)) with (clean_col data gender r).
      change (employment_status (clean_row data r))
        with (clean_col data employment_status r).
      now rewrite (shown_text data gender r Hg),
        (shown_text data employment_status r He). }
  assert (Hnone : is_object (List.map gender data) = false
                  \/ is_object (List.map employment_status data) = false ->
                  filter (fun p => negb (isna (fst p)) && negb (isna (snd p)))
                    (List.map (fun r => (replace_empty (gender r),
                                         replace_empty (employment_status r)))
                       (load_clean_data data)) = []).
  { intros H. apply filter_nil. intros p Hp.
    apply in_map_iff in Hp as [r' [<- Hr']].
    rewrite load_clean_data_rows in Hr'. apply in_map_iff in Hr' as [r [<- Hr]].
    cbn [fst snd].
    change (gender (clean_row data r)) with (clean_col data gender r).
    change (employment_status (clean_row data r))
      with (clean_col data employment_status r).
    destruct H as [H|H]; rewrite (clean_col_missing data _ r H Hr); simpl;
      [reflexivity | apply andb_false_r]. }
  eexists. split; [reflexivity|]. split; [exact Hboth|]. split; [exact Hnone|].
  destruct (is_object (List.map gender data)) eqn:Eg;
    [destruct (is_object (List.map employment_status data)) eqn:Ee|].
  - cbn [sun_df]. rewrite (Hboth eq_refl eq_refl).
    apply Forall_map, Forall_forall. intros r _.
    destruct (shown_not_blank (gender r)) as [G1 G2].
    destruct (shown_not_blank (employment_status r)) as [E1 E2].
    exists (shown (gender r)), (shown (employment_status r)). auto.
  - rewrite (Hnone (or_intror eq_refl)). constructor.
  - rewrite (Hnone (or_introl eq_refl)). constructor.
Qed.

End PageFacts.

Module HeatmapFacts.
Import app LabelEncoderFacts.

Lemma list_sum_map_add {A : Type} (f g : A -> nat) (l : list A) :
  list_sum (List.map (fun x => (f x + g x)%nat) l)
  = (list_sum (List.map f l) + list_sum (List.map g l))%nat.
Proof. induction l as [|a l IH]; simpl; [reflexivity | rewrite IH; lia]. Qed.

Lemma list_sum_map_zero {A : Type} (f : A -> nat) (l : list A) :
  (forall x, In x l -> f x = 0%nat) -> list_sum (List.map f l) = 0%nat.
Proof.
  induction l as [|a l IH]; simpl; intros H; [reflexivity|].
  rewrite (H a), IH; auto.
Qed.

Lemma list_sum_map_ge {A : Type} (f : A -> nat) (l : list A) (x : A) :
  In x l -> (f x <= list_sum (List.map f l))%nat.
Proof.
  induction l as [|a l IH]; simpl; [intros []|].
  intros [->|H]; [lia|]. specialize (IH H). lia.
Qed.

Lemma indicator_sum (v : str) (l : list str) :
  NoDup l -> In v l ->
  list_sum (List.map (fun y => indicator (str_eqb v y)) l) = 1%nat.
Proof.
  induction 1 as [|a l Ha Hnd IH]; simpl; intros Hin; [contradiction|].
  destruct Hin as [->|Hin].
  - rewrite str_eqb_refl. simpl. f_equal. apply list_sum_map_zero.
    intros y Hy. destruct (str_eqb v y) eqn:E; [|reflexivity].
    apply str_eqb_eq in E. subst. contradiction.
  - destruct (str_eqb v a) eqn:E.
    + apply str_eqb_eq in E. subst. contradiction.
    + simpl. now apply IH.
Qed.

Lemma count_pair_cons (p : str * str) (ps : list (str * str)) (x y : str) :
  count_pair (p :: ps) x y
  = (indicator (str_eqb (fst p) x && str_eqb (snd p) y) + count_pair ps x y)%nat.
Proof.
  unfold count_pair. simpl.
  destruct (str_eqb (fst p) x && str_eqb (snd p) y); reflexivity.
Qed.

Lemma pair_indicator_sum (p : str * str) (idx lbl : list str) :
  NoDup idx -> NoDup lbl -> In (fst p) idx -> In (snd p) lbl ->
  list_sum (List.map (fun x =>
    list_sum (List.map (fun y =>
      indicator (str_eqb (fst p) x && str_eqb (snd p) y)) lbl)) idx) = 1%nat.
Proof.
  intros Hi Hl Hx Hy.
  rewrite <- (@indicator_sum _ _ Hi Hx). f_equal. apply map_ext. intros x.
  destruct (str_eqb (fst p) x); simpl.
  - now apply indicator_sum.
  - apply list_sum_map_zero. reflexivity.
Qed.

Lemma counts_sum (ps : list (str * str)) (idx lbl : list str) :
  NoDup idx -> NoDup lbl ->
  (forall p, In p ps -> In (fst p) idx /\ In (snd p) lbl) ->
  list_sum (List.map (fun x =>
    list_sum (List.map (fun y => count_pair ps x y) lbl)) idx)
  = List.length ps.
Proof.
  intros Hi Hl. induction ps as [|p ps IH]; intros Hin.
  - apply list_sum_map_zero. intros x _. apply list_sum_map_zero. reflexivity.
  - rewrite (map_ext _ (fun x =>
      (list_sum (List.map (fun y =>
         indicator (str_eqb (fst p) x && str_eqb (snd p) y)) lbl)
       + list_sum (List.map (fun y => count_pair ps x y) lbl))%nat)).
    + rewrite list_sum_map_add, IH by (intros q Hq; apply Hin; now right).
      destruct (Hin p (or_introl eq_refl)) as [Hx Hy].
      rewrite (@pair_indicator_sum p _ _ Hi Hl Hx Hy). reflexivity.
    + intros x. rewrite <- list_sum_map_add. f_equal. apply map_ext.
      intros y. apply count_pair_cons.
Qed.

Lemma present_pairs_length (f g : row -> cell) (rows : DataFrame) :
  List.length (present_pairs (List.map f rows) (List.map g rows))
  = List.length (filter (both_present f g) rows).
Proof.
  induction rows as [|r rows IH]; simpl; [reflexivity|].
  unfold both_present at 1.
  destruct (f r) as [|x]; destruct (g r) as [|y]; simpl; now rewrite IH.
Qed.

Lemma count_pair_in (ps : list (str * str)) (x y : str) :
  In (x, y) ps -> (1 <= count_pair ps x y)%nat.
Proof.
  induction ps as [|p ps IH]; [intros []|].
  intros [->|H]; rewrite count_pair_cons.
  - simpl. rewrite !str_eqb_refl. simpl. lia.
  - specialize (IH H). lia.
Qed.

(** The heatmap table counts every record that has both an education level
    and an employment status exactly once, and no other: its cells add up
    to the number of such records. Its row and column labels are in
    increasing order, every row has one cell per column label, and no row is
    empty. *)
Theorem heatmap_counts_complete_records_once (rows : DataFrame) :
  exists t,
    heatmap_data (Table rows) = Ok t
    /\ total t
       = List.length (filter (both_present education_level employment_status) rows)
    /\ increasing (index t) /\ increasing (labels t)
    /\ List.length (counts t) = List.length (index t)
    /\ Forall (fun cs => List.length cs = List.length (labels t)
                         /\ (1 <= list_sum cs)%nat) (counts t).
Proof.
  eexists. split; [reflexivity|].
  set (ps := present_pairs (List.map education_level rows)
                           (List.map employment_status rows)).
  unfold total, crosstab. cbn [counts index labels].
  fold ps. split; [|split; [|split; [|split]]].
  - rewrite map_map. rewrite counts_sum.
    + apply present_pairs_length.
    + apply increasing_NoDup, unique_increasing.
    + apply increasing_NoDup, unique_increasing.
    + intros p Hp. split; apply unique_in; now apply in_map.
  - apply unique_increasing.
  - apply unique_increasing.
  - apply length_map.
  - apply Forall_map, Forall_forall. intros x Hx. split; [apply length_map|].
    apply unique_in, in_map_iff in Hx as [[x' y] [<- Hp]]. simpl.
    apply Nat.le_trans with (count_pair ps x' y); [now apply count_pair_in|].
    apply (list_sum_map_ge (fun y => count_pair ps x' y)).
    apply unique_in. now apply (in_map snd) in Hp.
Qed.

End HeatmapFacts.

Section Page.
Import app CleanFacts.

Lemma unemp_rate_bounds (status : list cell) :
  status <> [] -> (0 <= unemp_rate status)%Q /\ (unemp_rate status <= 100)%Q.
Proof.
  intros Hne. unfold unemp_rate.
  assert (Hn : (0 < List.length status)%nat)
    by (destruct status; [congruence | simpl; lia]).
  assert (Hc : (List.length (filter is_unemployed status)
                <= List.length status)%nat) by apply filter_length_le.
  set (c := List.length (filter is_unemployed status)) in *.
  set (n := List.length status) in *.
  assert (Hq : (0 < inject_Z (Z.of_nat n))%Q).
  { change 0%Q with (inject_Z 0). rewrite <- Zlt_Qlt. lia. }
  assert (H0 : (0 <= inject_Z (Z.of_nat c) / inject_Z (Z.of_nat n))%Q).
  { apply Qle_shift_div_l; [exact Hq|]. rewrite Qmult_0_l.
    change 0%Q with (inject_Z 0). rewrite <- Zle_Qle. lia. }
  assert (H1 : (inject_Z (Z.of_nat c) / inject_Z (Z.of_nat n) <= 1)%Q).
  { apply Qle_shift_div_r; [exact Hq|]. rewrite Qmult_1_l.
    rewrite <- Zle_Qle. lia. }
  split; lra.
Qed.

(** The sidebar shows no metric for an empty frame, so the rate is never a
    division by zero; for a frame with records it shows their number and an
    unemployment rate between 0 and 100. *)
Theorem sidebar_rate_is_a_percentage (rows : DataFrame) :
  rows <> [] ->
  sidebar NoColumns = Ok []
  /\ sidebar (Table []) = Ok []
  /\ exists rate,
       sidebar (Table rows)
       = Ok [st_metric "Total Sample" (inject_Z (Z.of_nat (List.length rows)));
             st_metric "Unemployment Rate" rate]
       /\ (0 <= rate)%Q /\ (rate <= 100)%Q.
Proof.
  intros Hne. split; [reflexivity|]. split; [reflexivity|].
  exists (unemp_rate (List.map employment_status rows)). split.
  - destruct rows as [|r rows]; [congruence|].
    unfold sidebar. cbn [empty]. unfold column.
    change (getitem train_model.columns (lit "employment_status"))
      with (Ok employment_status).
    cbn [bind]. now rewrite length_map.
  - apply unemp_rate_bounds. destruct rows; [congruence | discriminate].
Qed.

Lemma sidebar_ok (rows : DataFrame) : exists side, sidebar (Table rows) = Ok side.
Proof.
  destruct rows as [|r rows]; [now exists []|].
  eexists. unfold sidebar. cbn [empty]. unfold column.
  change (getitem train_model.columns (lit "employment_status"))
    with (Ok employment_status).
  reflexivity.
Qed.

Lemma frame_steps_ok (data : DataFrame) :
  exists side tree sun heat,
    sidebar (Table (load_clean_data data)) = Ok side
    /\ tree_df (Table (load_clean_data data)) = Ok tree
    /\ sun_df (Table (load_clean_data data)) = Ok sun
    /\ heatmap_data (Table (load_clean_data data)) = Ok heat.
Proof.
  destruct (sidebar_ok (load_clean_data data)) as [side Hs].
  exists side. eexists _, _, _. split; [exact Hs|]. repeat split; reflexivity.
Qed.

(** The page needs the survey file. When [read_csv] raises, the loader shows
    the exception text and hands back a frame without columns; the sidebar
    is skipped, and the Summary tab raises [KeyError] on the solution column
    before any chart is drawn, so nothing after it is computed, whatever the
    bundle holds. When the file was read, the sidebar and the three frame
    steps never raise: the page can then fail only in a plotly call or in
    the prediction tab. *)
Theorem page_raises_without_the_survey
    (px_treemap : DataFrame -> result unit) (px_pie : frame -> result unit)
    (px_sunburst : list (cell * cell) -> result unit)
    (px_imshow : Crosstab -> result unit)
    (assets : option Assets) (s : Selections) (pressed : bool) :
  (forall text,
      load_clean_data_or_empty (csv_error text)
      = (NoColumns, [st_error (String.append "Error loading CSV: " text)])
      /\ page_data px_treemap px_pie px_sunburst px_imshow (csv_error text)
           assets s pressed
         = Raise (KeyError (lit "proposed_solution")))
  /\ (forall data,
        exists side tree sun heat,
          sidebar (Table (load_clean_data data)) = Ok side
          /\ tree_df (Table (load_clean_data data)) = Ok tree
          /\ sun_df (Table (load_clean_data data)) = Ok sun
          /\ heatmap_data (Table (load_clean_data data)) = Ok heat
          /\ forall e,
               page_data px_treemap px_pie px_sunburst px_imshow
                 (csv_frame data) assets s pressed = Raise e ->
               px_treemap tree = Raise e
               \/ px_pie (Table (load_clean_data data)) = Raise e
               \/ px_sunburst sun = Raise e
               \/ px_imshow heat = Raise e
               \/ tab3 assets s pressed = Raise e).
Proof.
  split; [intros text; split; reflexivity|].
  intros data.
  destruct (frame_steps_ok data) as (side & tree & sun & heat & Hs & Ht & Hu & Hh).
  exists side, tree, sun, heat. repeat (split; [assumption|]).
  intros e. unfold page_data. cbn [load_clean_data_or_empty fst snd].
  rewrite Hs, Ht, Hu, Hh. cbn [bind].
  destruct (px_treemap tree) as [[]|e1]; cbn [bind];
    [|intros [= ->]; now left].
  destruct (px_pie _) as [[]|e2]; cbn [bind];
    [|intros [= ->]; right; now left].
  destruct (px_sunburst sun) as [[]|e3]; cbn [bind];
    [|intros [= ->]; right; right; now left].
  destruct (px_imshow heat) as [[]|e4]; cbn [bind];
    [|intros [= ->]; right; right; right; now left].
  destruct (tab3 assets s pressed) as [t3|e5]; cbn [bind];
    [discriminate|]. intros [= ->]. now repeat right.
Qed.

End Page.

Lemma sidebar_rate_is_a_percentage_witness :
  app.sidebar app.NoColumns = Ok []
  /\ app.sidebar (app.Table []) = Ok []
  /\ exists rate,
       app.sidebar (app.Table (app.load_clean_data Example.survey_no_solution))
       = Ok [app.st_metric "Total Sample"
               (inject_Z (Z.of_nat (List.length
                  (app.load_clean_data Example.survey_no_solution))));
             app.st_metric "Unemployment Rate" rate]
       /\ (0 <= rate)%Q /\ (rate <= 100)%Q.
Proof.
  apply (@sidebar_rate_is_a_percentage
           (app.load_clean_data Example.survey_no_solution)).
  discriminate.
Defined.

(** The example frame without solutions, through the page: the padded
    [Unemployed] counts, the blank gender reads [Unknown], nothing is left
    out of the treemap. *)
Example page_on_survey_without_solutions :
  app.unemp_rate
    (List.map employment_status (app.load_clean_data Example.survey_no_solution))
  = (100 # 2)%Q
  /\ app.sun_df (app.Table (app.load_clean_data Example.survey_no_solution))
     = Ok [(Str app.Unknown, Str (lit "Unemployed"));
           (Str (lit "Male"), Str (lit "Student"))]
  /\ app.tree_df (app.Table (app.load_clean_data Example.survey_no_solution))
     = Ok (app.load_clean_data Example.survey_no_solution).
Proof. repeat split; vm_compute; reflexivity. Qed.
